(** * PyMAPDL: command formatters and the HPC submit command

    A shallow embedding of two modules of the repository:

    - [src/ansys/mapdl/core/_commands/preproc/meshing.py]: class [Meshing],
      whose methods build one APDL command line each and hand it to
      [self.run];
    - [src/ansys/mapdl/core/cli/hpc.py]: the click command [submit].

    Python values are the inductive [pyval]; external calls ([self.run],
    [os.getcwd], the PyHPS helpers, file I/O, [print]) are computations in
    a state-and-exception monad that also records every external call in
    a log, so that statements about what is called, with which arguments
    and in which order, are statements about that log. *)

From Stdlib Require Import ZArith Lia Ascii.
From stdpp Require Import base option list strings pretty gmap sorting.

Open Scope string_scope.
Open Scope list_scope.

(** ** Python values *)

Module Py.

(** The values that reach the embedded code: [None], booleans, integers
    and strings.  [VOther] stands for any other object (a float, a list,
    ...) and carries the two things the embedded code ever asks of a
    value: what [format(x, "")] returns and whether it is truthy. *)
Inductive pyval : Type :=
  | VNone
  | VBool (b : bool)
  | VInt (z : Z)
  | VStr (s : string)
  | VOther (repr : string) (truth : bool).

#[global] Instance pyval_eq_dec : EqDecision pyval.
Proof. solve_decision. Defined.

(** A replacement field [{x}] of an f-string is [format(x, "")]. *)
Definition format (v : pyval) : string :=
  match v with
  | VNone => "None"
  | VBool true => "True"
  | VBool false => "False"
  | VInt z => pretty z
  | VStr s => s
  | VOther repr _ => repr
  end.

(** Truth value testing, as done by [if x:]. *)
Definition truthy (v : pyval) : bool :=
  match v with
  | VNone => false
  | VBool b => b
  | VInt z => negb (z =? 0)%Z
  | VStr s => negb (String.eqb s "")
  | VOther _ truth => truth
  end.

(** [x is None]. *)
Definition is_None (v : pyval) : bool :=
  match v with
  | VNone => true
  | _ => false
  end.

(** A [dict] with string keys, in insertion order. *)
Definition dict : Type := list (string * pyval).

End Py.
Export Py.

(** ** External calls: state, exceptions and the call log *)

Section Effects.
Context {World Exn Call Ret : Type}.

(** What a call ends with: a value, or an exception. *)
Inductive Outcome (A : Type) : Type :=
  | Returned (a : A)
  | Raised (e : Exn).
Arguments Returned {A} a.
Arguments Raised {A} e.

Definition outcome_map {A B} (f : A -> B) (o : Outcome A) : Outcome B :=
  match o with
  | Returned a => Returned (f a)
  | Raised e => Raised e
  end.

(** One log entry per external call: the call and how it ended. *)
Definition Log : Type := list (Call * Outcome Ret).

Definition M (A : Type) : Type :=
  World * Log -> Outcome A * (World * Log).

Definition ret {A} (a : A) : M A := fun s => (Returned a, s).

(** Sequencing: an exception ends the computation. *)
Definition bind {A B} (m : M A) (k : A -> M B) : M B :=
  fun s =>
    match m s with
    | (Returned a, s') => k a s'
    | (Raised e, s') => (Raised e, s')
    end.

(** An external call [c] whose behaviour on the world is [f]; [inj] says
    how its return value is written in the log. *)
Definition external {A} (c : Call) (inj : A -> Ret)
    (f : World -> Outcome A * World) : M A :=
  fun s =>
    let '(o, w') := f (fst s) in
    (o, (w', snd s ++ [(c, outcome_map inj o)])).

(** [try: body / finally: fin], as the [with] statement uses it: [fin]
    runs on both exits, and an exception of [fin] replaces a pending
    one. *)
Definition try_finally {A} (body : M A) (fin : M unit) : M A :=
  fun s =>
    match body s with
    | (o, s') =>
        match fin s' with
        | (Returned _, s'') => (o, s'')
        | (Raised e, s'') => (Raised e, s'')
        end
    end.

(** [when b m] is [if b: m]. *)
Definition when (b : bool) (m : M unit) : M unit :=
  if b then m else ret tt.

(** A run from world [w], with an empty log: how it ends, the calls it
    made, and the world it leaves. *)
Definition result {A} (m : M A) (w : World) : Outcome A := fst (m (w, [])).
Definition calls {A} (m : M A) (w : World) : Log := snd (snd (m (w, []))).
Definition final {A} (m : M A) (w : World) : World := fst (snd (m (w, []))).

(** The exception of the last call that raised, if any did. *)
Definition exception_of {A} (o : Outcome A) : option Exn :=
  match o with
  | Returned _ => None
  | Raised e => Some e
  end.

Definition last_raised (log : Log) : option Exn :=
  last (omap (fun ev => exception_of (snd ev)) log).

End Effects.

Arguments Outcome : clear implicits.
Arguments Returned {Exn A} a.
Arguments Raised {Exn A} e.
Arguments M : clear implicits.
Arguments Log : clear implicits.

Declare Scope py_scope.
Delimit Scope py_scope with py.
Notation "x <- m ;; k" := (bind m (fun x => k))
  (at level 100, m at next level, right associativity) : py_scope.
Notation "m ;;; k" := (bind m (fun _ => k))
  (at level 100, right associativity) : py_scope.
Open Scope py_scope.

(** ** [class Meshing] *)

Module Meshing.

Section Methods.
Context {World Exn Resp : Type}.

(** The keyword options [**kwargs]. *)
Definition Kwargs : Type := dict.

(** A call of [self.run]: the command line and the keyword options. *)
Definition Call : Type := string * Kwargs.

Local Abbreviation M := (M World Exn Call Resp).

(** [self.run], supplied by the class [Meshing] is mixed into. *)
Variable run : string -> Kwargs -> World -> Outcome Exn Resp * World.

Definition self_run (command : string) (kwargs : Kwargs) : M Resp :=
  external (command, kwargs) id (run command kwargs).

(** [def accat(self, na1="", na2="", **kwargs)], line 29. *)
Definition accat (na1 na2 : pyval) (kwargs : Kwargs) : M Resp :=
  let command := "ACCAT," +:+ format na1 +:+ "," +:+ format na2 in
  self_run command kwargs.

(** [def aclear(self, na1="", na2="", ninc="", **kwargs)], line 82. *)
Definition aclear (na1 na2 ninc : pyval) (kwargs : Kwargs) : M Resp :=
  let command := "ACLEAR," +:+ format na1 +:+ "," +:+ format na2 +:+ ","
        +:+ format ninc in
  self_run command kwargs.

(** [def aesize(self, anum="", size="", **kwargs)], line 114. *)
Definition aesize (anum size : pyval) (kwargs : Kwargs) : M Resp :=
  let command := "AESIZE," +:+ format anum +:+ "," +:+ format size in
  self_run command kwargs.

(** [def amap(self, area="", kp1="", kp2="", kp3="", kp4="", **kwargs)],
    line 147. *)
Definition amap (area kp1 kp2 kp3 kp4 : pyval) (kwargs : Kwargs) : M Resp :=
  let command := "AMAP," +:+ format area +:+ "," +:+ format kp1 +:+ ","
        +:+ format kp2 +:+ "," +:+ format kp3 +:+ "," +:+ format kp4 in
  self_run command kwargs.

(** [def amesh(self, na1="", na2="", ninc="", **kwargs)], line 181. *)
Definition amesh (na1 na2 ninc : pyval) (kwargs : Kwargs) : M Resp :=
  let command := "AMESH," +:+ format na1 +:+ "," +:+ format na2 +:+ ","
        +:+ format ninc in
  self_run command kwargs.

(** [def arefine(self, na1="", na2="", ninc="", level="", depth="",
    post="", retain="", **kwargs)], line 206. *)
Definition arefine
    (na1 na2 ninc level depth post retain : pyval)
    (kwargs : Kwargs) : M Resp :=
  let command := "AREFINE," +:+ format na1 +:+ "," +:+ format na2 +:+ ","
        +:+ format ninc +:+ "," +:+ format level +:+ "," +:+ format depth
        +:+ "," +:+ format post +:+ "," +:+ format retain in
  self_run command kwargs.

(** [def chkmsh(self, comp="", **kwargs)], line 290. *)
Definition chkmsh (comp : pyval) (kwargs : Kwargs) : M Resp :=
  let command := "CHKMSH," +:+ format comp in
  self_run command kwargs.

(** [def clrmshln(self, **kwargs)], line 312. *)
Definition clrmshln (kwargs : Kwargs) : M Resp :=
  let command := "CLRMSHLN," in
  self_run command kwargs.

(** [def cpcyc(self, lab="", toler="", kcn="", dx="", dy="", dz="",
    knonrot="", **kwargs)], line 336. *)
Definition cpcyc
    (lab toler kcn dx dy dz knonrot : pyval)
    (kwargs : Kwargs) : M Resp :=
  let command := "CPCYC," +:+ format lab +:+ "," +:+ format toler +:+ ","
        +:+ format kcn +:+ "," +:+ format dx +:+ "," +:+ format dy +:+ ","
        +:+ format dz +:+ "," +:+ format knonrot in
  self_run command kwargs.

(** [def czdel(self, grp1="", grp2="", grp3="", **kwargs)], line 394. *)
Definition czdel (grp1 grp2 grp3 : pyval) (kwargs : Kwargs) : M Resp :=
  let command := "CZDEL," +:+ format grp1 +:+ "," +:+ format grp2 +:+ ","
        +:+ format grp3 in
  self_run command kwargs.

(** [def czmesh(self, ecomps1="", ecomps2="", kcn="", kdir="", value="",
    cztol="", **kwargs)], line 428. *)
Definition czmesh
    (ecomps1 ecomps2 kcn kdir value cztol : pyval)
    (kwargs : Kwargs) : M Resp :=
  let command := "CZMESH," +:+ format ecomps1 +:+ "," +:+ format ecomps2
        +:+ "," +:+ format kcn +:+ "," +:+ format kdir +:+ ","
        +:+ format value +:+ "," +:+ format cztol in
  self_run command kwargs.

(** [def desize(self, minl="", minh="", mxel="", angl="", angh="",
    edgmn="", edgmx="", adjf="", adjm="", **kwargs)], line 501. *)
Definition desize
    (minl minh mxel angl angh edgmn edgmx adjf adjm : pyval)
    (kwargs : Kwargs) : M Resp :=
  let command := "DESIZE," +:+ format minl +:+ "," +:+ format minh +:+ ","
        +:+ format mxel +:+ "," +:+ format angl +:+ "," +:+ format angh
        +:+ "," +:+ format edgmn +:+ "," +:+ format edgmx +:+ ","
        +:+ format adjf +:+ "," +:+ format adjm in
  self_run command kwargs.

(** [def eorient(self, etype="", dir_="", toler="", **kwargs)], line 580. *)
Definition eorient (etype dir_ toler : pyval) (kwargs : Kwargs) : M Resp :=
  let command := "EORIENT," +:+ format etype +:+ "," +:+ format dir_
        +:+ "," +:+ format toler in
  self_run command kwargs.

(** [def erefine(self, ne1="", ne2="", ninc="", level="", depth="",
    post="", retain="", **kwargs)], line 676. *)
Definition erefine
    (ne1 ne2 ninc level depth post retain : pyval)
    (kwargs : Kwargs) : M Resp :=
  let command := "EREFINE," +:+ format ne1 +:+ "," +:+ format ne2 +:+ ","
        +:+ format ninc +:+ "," +:+ format level +:+ "," +:+ format depth
        +:+ "," +:+ format post +:+ "," +:+ format retain in
  self_run command kwargs.

(** [def esize(self, size="", ndiv="", **kwargs)], line 770. *)
Definition esize (size ndiv : pyval) (kwargs : Kwargs) : M Resp :=
  let command := "ESIZE," +:+ format size +:+ "," +:+ format ndiv in
  self_run command kwargs.

(** [def esys(self, kcn="", **kwargs)], line 806. *)
Definition esys (kcn : pyval) (kwargs : Kwargs) : M Resp :=
  let command := "ESYS," +:+ format kcn in
  self_run command kwargs.

(** [def fvmesh(self, keep="", **kwargs)], line 844. *)
Definition fvmesh (keep : pyval) (kwargs : Kwargs) : M Resp :=
  let command := "FVMESH," +:+ format keep in
  self_run command kwargs.

(** [def gsgdata(self, lfiber="", xref="", yref="", rotx0="", roty0="",
    **kwargs)], line 899. *)
Definition gsgdata
    (lfiber xref yref rotx0 roty0 : pyval)
    (kwargs : Kwargs) : M Resp :=
  let command := "GSGDATA," +:+ format lfiber +:+ "," +:+ format xref
        +:+ "," +:+ format yref +:+ "," +:+ format rotx0 +:+ ","
        +:+ format roty0 in
  self_run command kwargs.

(** [def imesh(self, laky="", nsla="", ntla="", kcn="", dx="", dy="",
    dz="", tol="", **kwargs)], line 933. *)
Definition imesh
    (laky nsla ntla kcn dx dy dz tol : pyval)
    (kwargs : Kwargs) : M Resp :=
  let command := "IMESH," +:+ format laky +:+ "," +:+ format nsla +:+ ","
        +:+ format ntla +:+ "," +:+ format kcn +:+ "," +:+ format dx
        +:+ "," +:+ format dy +:+ "," +:+ format dz +:+ ","
        +:+ format tol in
  self_run command kwargs.

(** [def katt(self, mat="", real="", type_="", esys="", **kwargs)], line
    1001. *)
Definition katt (mat real type_ esys : pyval) (kwargs : Kwargs) : M Resp :=
  let command := "KATT," +:+ format mat +:+ "," +:+ format real +:+ ","
        +:+ format type_ +:+ "," +:+ format esys in
  self_run command kwargs.

(** [def kclear(self, np1="", np2="", ninc="", **kwargs)], line 1035. *)
Definition kclear (np1 np2 ninc : pyval) (kwargs : Kwargs) : M Resp :=
  let command := "KCLEAR," +:+ format np1 +:+ "," +:+ format np2 +:+ ","
        +:+ format ninc in
  self_run command kwargs.

(** [def kesize(self, npt="", size="", fact1="", fact2="", **kwargs)],
    line 1062. *)
Definition kesize
    (npt size fact1 fact2 : pyval)
    (kwargs : Kwargs) : M Resp :=
  let command := "KESIZE," +:+ format npt +:+ "," +:+ format size +:+ ","
        +:+ format fact1 +:+ "," +:+ format fact2 in
  self_run command kwargs.

(** [def kmesh(self, np1="", np2="", ninc="", **kwargs)], line 1106. *)
Definition kmesh (np1 np2 ninc : pyval) (kwargs : Kwargs) : M Resp :=
  let command := "KMESH," +:+ format np1 +:+ "," +:+ format np2 +:+ ","
        +:+ format ninc in
  self_run command kwargs.

(** [def krefine(self, np1="", np2="", ninc="", level="", depth="",
    post="", retain="", **kwargs)], line 1129. *)
Definition krefine
    (np1 np2 ninc level depth post retain : pyval)
    (kwargs : Kwargs) : M Resp :=
  let command := "KREFINE," +:+ format np1 +:+ "," +:+ format np2 +:+ ","
        +:+ format ninc +:+ "," +:+ format level +:+ "," +:+ format depth
        +:+ "," +:+ format post +:+ "," +:+ format retain in
  self_run command kwargs.

(** [def kscon(self, npt="", delr="", kctip="", nthet="", rrat="",
    **kwargs)], line 1213. *)
Definition kscon
    (npt delr kctip nthet rrat : pyval)
    (kwargs : Kwargs) : M Resp :=
  let command := "KSCON," +:+ format npt +:+ "," +:+ format delr +:+ ","
        +:+ format kctip +:+ "," +:+ format nthet +:+ ","
        +:+ format rrat in
  self_run command kwargs.

(** [def latt(self, mat="", real="", type_="", kb="", ke="", secnum="",
    **kwargs)], line 1265. *)
Definition latt
    (mat real type_ kb ke secnum : pyval)
    (kwargs : Kwargs) : M Resp :=
  let command := "LATT," +:+ format mat +:+ "," +:+ format real +:+ ","
        +:+ format type_ +:+ ",," +:+ format kb +:+ "," +:+ format ke
        +:+ "," +:+ format secnum in
  self_run command kwargs.

(** [def lccat(self, nl1="", nl2="", **kwargs)], line 1333. *)
Definition lccat (nl1 nl2 : pyval) (kwargs : Kwargs) : M Resp :=
  let command := "LCCAT," +:+ format nl1 +:+ "," +:+ format nl2 in
  self_run command kwargs.

(** [def lclear(self, nl1="", nl2="", ninc="", **kwargs)], line 1384. *)
Definition lclear (nl1 nl2 ninc : pyval) (kwargs : Kwargs) : M Resp :=
  let command := "LCLEAR," +:+ format nl1 +:+ "," +:+ format nl2 +:+ ","
        +:+ format ninc in
  self_run command kwargs.

(** [def lesize(self, nl1="", size="", angsiz="", ndiv="", space="",
    kforc="", layer1="", layer2="", kyndiv="", **kwargs)], line 1412. *)
Definition lesize
    (nl1 size angsiz ndiv space kforc layer1 layer2 kyndiv : pyval)
    (kwargs : Kwargs) : M Resp :=
  let command := "LESIZE," +:+ format nl1 +:+ "," +:+ format size +:+ ","
        +:+ format angsiz +:+ "," +:+ format ndiv +:+ "," +:+ format space
        +:+ "," +:+ format kforc +:+ "," +:+ format layer1 +:+ ","
        +:+ format layer2 +:+ "," +:+ format kyndiv in
  self_run command kwargs.

(** [def lmesh(self, nl1="", nl2="", ninc="", **kwargs)], line 1519. *)
Definition lmesh (nl1 nl2 ninc : pyval) (kwargs : Kwargs) : M Resp :=
  let command := "LMESH," +:+ format nl1 +:+ "," +:+ format nl2 +:+ ","
        +:+ format ninc in
  self_run command kwargs.

(** [def lrefine(self, nl1="", nl2="", ninc="", level="", depth="",
    post="", retain="", **kwargs)], line 1543. *)
Definition lrefine
    (nl1 nl2 ninc level depth post retain : pyval)
    (kwargs : Kwargs) : M Resp :=
  let command := "LREFINE," +:+ format nl1 +:+ "," +:+ format nl2 +:+ ","
        +:+ format ninc +:+ "," +:+ format level +:+ "," +:+ format depth
        +:+ "," +:+ format post +:+ "," +:+ format retain in
  self_run command kwargs.

(** [def mat(self, mat="", **kwargs)], line 1627. *)
Definition mat (mat : pyval) (kwargs : Kwargs) : M Resp :=
  let command := "MAT," +:+ format mat in
  self_run command kwargs.

(** [def mcheck(self, lab="", **kwargs)], line 1654. *)
Definition mcheck (lab : pyval) (kwargs : Kwargs) : M Resp :=
  let command := "MCHECK," +:+ format lab in
  self_run command kwargs.

(** [def modmsh(self, lab="", **kwargs)], line 1708. *)
Definition modmsh (lab : pyval) (kwargs : Kwargs) : M Resp :=
  let command := "MODMSH," +:+ format lab in
  self_run command kwargs.

(** [def mopt(self, lab="", value="", **kwargs)], line 1755. *)
Definition mopt (lab value : pyval) (kwargs : Kwargs) : M Resp :=
  let command := "MOPT," +:+ format lab +:+ "," +:+ format value in
  self_run command kwargs.

(** [def mshape(self, key="", dimension="", **kwargs)], line 1839. *)
Definition mshape (key dimension : pyval) (kwargs : Kwargs) : M Resp :=
  let command := "MSHAPE," +:+ format key +:+ "," +:+ format dimension in
  self_run command kwargs.

(** [def mshcopy(self, keyla="", laptrn="", lacopy="", kcn="", dx="",
    dy="", dz="", tol="", low="", high="", **kwargs)], line 1879. *)
Definition mshcopy
    (keyla laptrn lacopy kcn dx dy dz tol low high : pyval)
    (kwargs : Kwargs) : M Resp :=
  let command := "MSHCOPY," +:+ format keyla +:+ "," +:+ format laptrn
        +:+ "," +:+ format lacopy +:+ "," +:+ format kcn +:+ ","
        +:+ format dx +:+ "," +:+ format dy +:+ "," +:+ format dz +:+ ","
        +:+ format tol +:+ "," +:+ format low +:+ "," +:+ format high in
  self_run command kwargs.

(** [def mshkey(self, key="", **kwargs)], line 1942. *)
Definition mshkey (key : pyval) (kwargs : Kwargs) : M Resp :=
  let command := "MSHKEY," +:+ format key in
  self_run command kwargs.

(** [def mshmid(self, key="", **kwargs)], line 1971. *)
Definition mshmid (key : pyval) (kwargs : Kwargs) : M Resp :=
  let command := "MSHMID," +:+ format key in
  self_run command kwargs.

(** [def mshpattern(self, key="", **kwargs)], line 1999. *)
Definition mshpattern (key : pyval) (kwargs : Kwargs) : M Resp :=
  let command := "MSHPATTERN," +:+ format key in
  self_run command kwargs.

(** [def nrefine(self, nn1="", nn2="", ninc="", level="", depth="",
    post="", retain="", **kwargs)], line 2035. *)
Definition nrefine
    (nn1 nn2 ninc level depth post retain : pyval)
    (kwargs : Kwargs) : M Resp :=
  let command := "NREFINE," +:+ format nn1 +:+ "," +:+ format nn2 +:+ ","
        +:+ format ninc +:+ "," +:+ format level +:+ "," +:+ format depth
        +:+ "," +:+ format post +:+ "," +:+ format retain in
  self_run command kwargs.

(** [def psmesh(self, secid="", name="", p0="", egroup="", num="", kcn="",
    kdir="", value="", ndplane="", pstol="", pstype="", ecomp="",
    ncomp="", **kwargs)], line 2119. *)
Definition psmesh
    (secid name p0 egroup num kcn kdir value ndplane pstol pstype ecomp
    ncomp : pyval)
    (kwargs : Kwargs) : M Resp :=
  let command := "PSMESH," +:+ format secid +:+ "," +:+ format name
        +:+ "," +:+ format p0 +:+ "," +:+ format egroup +:+ ","
        +:+ format num +:+ "," +:+ format kcn +:+ "," +:+ format kdir
        +:+ "," +:+ format value +:+ "," +:+ format ndplane +:+ ","
        +:+ format pstol +:+ "," +:+ format pstype +:+ ","
        +:+ format ecomp +:+ "," +:+ format ncomp in
  self_run command kwargs.

(** [def real(self, nset="", **kwargs)], line 2258. *)
Definition real (nset : pyval) (kwargs : Kwargs) : M Resp :=
  let command := "REAL," +:+ format nset in
  self_run command kwargs.

(** [def rthick(self, par="", iloc="", jloc="", kloc="", lloc="",
    **kwargs)], line 2281. *)
Definition rthick
    (par iloc jloc kloc lloc : pyval)
    (kwargs : Kwargs) : M Resp :=
  let command := "RTHICK," +:+ format par +:+ "," +:+ format iloc +:+ ","
        +:+ format jloc +:+ "," +:+ format kloc +:+ "," +:+ format lloc in
  self_run command kwargs.

(** [def shpp(self, lab="", value1="", value2="", **kwargs)], line 2323. *)
Definition shpp (lab value1 value2 : pyval) (kwargs : Kwargs) : M Resp :=
  let command := "SHPP," +:+ format lab +:+ "," +:+ format value1 +:+ ","
        +:+ format value2 in
  self_run command kwargs.

(** [def smrtsize(self, sizlvl="", fac="", expnd="", trans="", angl="",
    angh="", gratio="", smhlc="", smanc="", mxitr="", sprx="", **kwargs)],
    line 2469. *)
Definition smrtsize
    (sizlvl fac expnd trans angl angh gratio smhlc smanc mxitr sprx :
    pyval)
    (kwargs : Kwargs) : M Resp :=
  let command := "SMRTSIZE," +:+ format sizlvl +:+ "," +:+ format fac
        +:+ "," +:+ format expnd +:+ "," +:+ format trans +:+ ","
        +:+ format angl +:+ "," +:+ format angh +:+ "," +:+ format gratio
        +:+ "," +:+ format smhlc +:+ "," +:+ format smanc +:+ ","
        +:+ format mxitr +:+ "," +:+ format sprx in
  self_run command kwargs.

(** [def tchg(self, ename1="", ename2="", etype2="", **kwargs)], line
    2599. *)
Definition tchg (ename1 ename2 etype2 : pyval) (kwargs : Kwargs) : M Resp :=
  let command := "TCHG," +:+ format ename1 +:+ "," +:+ format ename2
        +:+ "," +:+ format etype2 in
  self_run command kwargs.

(** [def timp(self, elem="", chgbnd="", implevel="", **kwargs)], line
    2670. *)
Definition timp (elem chgbnd implevel : pyval) (kwargs : Kwargs) : M Resp :=
  let command := "TIMP," +:+ format elem +:+ "," +:+ format chgbnd +:+ ","
        +:+ format implevel in
  self_run command kwargs.

(** [def type(self, itype="", **kwargs)], line 2735. *)
Definition type (itype : pyval) (kwargs : Kwargs) : M Resp :=
  let command := "TYPE," +:+ format itype in
  self_run command kwargs.

(** [def vatt(self, mat="", real="", type_="", esys="", secnum="",
    **kwargs)], line 2766. *)
Definition vatt
    (mat real type_ esys secnum : pyval)
    (kwargs : Kwargs) : M Resp :=
  let command := "VATT," +:+ format mat +:+ "," +:+ format real +:+ ","
        +:+ format type_ +:+ "," +:+ format esys +:+ ","
        +:+ format secnum in
  self_run command kwargs.

(** [def vclear(self, nv1="", nv2="", ninc="", **kwargs)], line 2798. *)
Definition vclear (nv1 nv2 ninc : pyval) (kwargs : Kwargs) : M Resp :=
  let command := "VCLEAR," +:+ format nv1 +:+ "," +:+ format nv2 +:+ ","
        +:+ format ninc in
  self_run command kwargs.

(** [def vimp(self, vol="", chgbnd="", implevel="", **kwargs)], line 2826.
    *)
Definition vimp (vol chgbnd implevel : pyval) (kwargs : Kwargs) : M Resp :=
  let command := "VIMP," +:+ format vol +:+ "," +:+ format chgbnd +:+ ","
        +:+ format implevel in
  self_run command kwargs.

(** [def vmesh(self, nv1="", nv2="", ninc="", **kwargs)], line 2894. *)
Definition vmesh (nv1 nv2 ninc : pyval) (kwargs : Kwargs) : M Resp :=
  let command := "VMESH," +:+ format nv1 +:+ "," +:+ format nv2 +:+ ","
        +:+ format ninc in
  self_run command kwargs.

(** [def veorient(self, vnum="", option="", value1="", value2="",
    **kwargs)], line 2932. *)
Definition veorient
    (vnum option value1 value2 : pyval)
    (kwargs : Kwargs) : M Resp :=
  let command := "VEORIENT," +:+ format vnum +:+ "," +:+ format option
        +:+ "," +:+ format value1 +:+ "," +:+ format value2 in
  self_run command kwargs.

(** [def vsweep(self, vnum="", srca="", trga="", lsmo="", **kwargs)], line
    3007. *)
Definition vsweep
    (vnum srca trga lsmo : pyval)
    (kwargs : Kwargs) : M Resp :=
  let command := "VSWEEP," +:+ format vnum +:+ "," +:+ format srca +:+ ","
        +:+ format trga +:+ "," +:+ format lsmo in
  self_run command kwargs.

End Methods.

(** The methods of the class, named by the APDL command each documents
    ("APDL Command: ..." in its docstring). *)
Inductive method : Type :=
  | ACCAT | ACLEAR | AESIZE | AMAP | AMESH | AREFINE | CHKMSH | CLRMSHLN
  | CPCYC | CZDEL | CZMESH | DESIZE | EORIENT | EREFINE | ESIZE | ESYS
  | FVMESH | GSGDATA | IMESH | KATT | KCLEAR | KESIZE | KMESH | KREFINE
  | KSCON | LATT | LCCAT | LCLEAR | LESIZE | LMESH | LREFINE | MAT
  | MCHECK | MODMSH | MOPT | MSHAPE | MSHCOPY | MSHKEY | MSHMID
  | MSHPATTERN | NREFINE | PSMESH | REAL | RTHICK | SHPP | SMRTSIZE
  | TCHG | TIMP | TYPE | VATT | VCLEAR | VIMP | VMESH | VEORIENT | VSWEEP.

Definition apdl_command (m : method) : string :=
  match m with
  | ACCAT => "ACCAT"
  | ACLEAR => "ACLEAR"
  | AESIZE => "AESIZE"
  | AMAP => "AMAP"
  | AMESH => "AMESH"
  | AREFINE => "AREFINE"
  | CHKMSH => "CHKMSH"
  | CLRMSHLN => "CLRMSHLN"
  | CPCYC => "CPCYC"
  | CZDEL => "CZDEL"
  | CZMESH => "CZMESH"
  | DESIZE => "DESIZE"
  | EORIENT => "EORIENT"
  | EREFINE => "EREFINE"
  | ESIZE => "ESIZE"
  | ESYS => "ESYS"
  | FVMESH => "FVMESH"
  | GSGDATA => "GSGDATA"
  | IMESH => "IMESH"
  | KATT => "KATT"
  | KCLEAR => "KCLEAR"
  | KESIZE => "KESIZE"
  | KMESH => "KMESH"
  | KREFINE => "KREFINE"
  | KSCON => "KSCON"
  | LATT => "LATT"
  | LCCAT => "LCCAT"
  | LCLEAR => "LCLEAR"
  | LESIZE => "LESIZE"
  | LMESH => "LMESH"
  | LREFINE => "LREFINE"
  | MAT => "MAT"
  | MCHECK => "MCHECK"
  | MODMSH => "MODMSH"
  | MOPT => "MOPT"
  | MSHAPE => "MSHAPE"
  | MSHCOPY => "MSHCOPY"
  | MSHKEY => "MSHKEY"
  | MSHMID => "MSHMID"
  | MSHPATTERN => "MSHPATTERN"
  | NREFINE => "NREFINE"
  | PSMESH => "PSMESH"
  | REAL => "REAL"
  | RTHICK => "RTHICK"
  | SHPP => "SHPP"
  | SMRTSIZE => "SMRTSIZE"
  | TCHG => "TCHG"
  | TIMP => "TIMP"
  | TYPE => "TYPE"
  | VATT => "VATT"
  | VCLEAR => "VCLEAR"
  | VIMP => "VIMP"
  | VMESH => "VMESH"
  | VEORIENT => "VEORIENT"
  | VSWEEP => "VSWEEP"
  end.

(** The declared parameters of each method, [self] and [**kwargs]
    apart. *)
Definition parameters (m : method) : list string :=
  match m with
  | ACCAT => ["na1"; "na2"]
  | ACLEAR => ["na1"; "na2"; "ninc"]
  | AESIZE => ["anum"; "size"]
  | AMAP => ["area"; "kp1"; "kp2"; "kp3"; "kp4"]
  | AMESH => ["na1"; "na2"; "ninc"]
  | AREFINE => ["na1"; "na2"; "ninc"; "level"; "depth"; "post"; "retain"]
  | CHKMSH => ["comp"]
  | CLRMSHLN => []
  | CPCYC => ["lab"; "toler"; "kcn"; "dx"; "dy"; "dz"; "knonrot"]
  | CZDEL => ["grp1"; "grp2"; "grp3"]
  | CZMESH => ["ecomps1"; "ecomps2"; "kcn"; "kdir"; "value"; "cztol"]
  | DESIZE =>
      ["minl"; "minh"; "mxel"; "angl"; "angh"; "edgmn"; "edgmx"; "adjf";
      "adjm"]
  | EORIENT => ["etype"; "dir_"; "toler"]
  | EREFINE => ["ne1"; "ne2"; "ninc"; "level"; "depth"; "post"; "retain"]
  | ESIZE => ["size"; "ndiv"]
  | ESYS => ["kcn"]
  | FVMESH => ["keep"]
  | GSGDATA => ["lfiber"; "xref"; "yref"; "rotx0"; "roty0"]
  | IMESH => ["laky"; "nsla"; "ntla"; "kcn"; "dx"; "dy"; "dz"; "tol"]
  | KATT => ["mat"; "real"; "type_"; "esys"]
  | KCLEAR => ["np1"; "np2"; "ninc"]
  | KESIZE => ["npt"; "size"; "fact1"; "fact2"]
  | KMESH => ["np1"; "np2"; "ninc"]
  | KREFINE => ["np1"; "np2"; "ninc"; "level"; "depth"; "post"; "retain"]
  | KSCON => ["npt"; "delr"; "kctip"; "nthet"; "rrat"]
  | LATT => ["mat"; "real"; "type_"; "kb"; "ke"; "secnum"]
  | LCCAT => ["nl1"; "nl2"]
  | LCLEAR => ["nl1"; "nl2"; "ninc"]
  | LESIZE =>
      ["nl1"; "size"; "angsiz"; "ndiv"; "space"; "kforc"; "layer1";
      "layer2"; "kyndiv"]
  | LMESH => ["nl1"; "nl2"; "ninc"]
  | LREFINE => ["nl1"; "nl2"; "ninc"; "level"; "depth"; "post"; "retain"]
  | MAT => ["mat"]
  | MCHECK => ["lab"]
  | MODMSH => ["lab"]
  | MOPT => ["lab"; "value"]
  | MSHAPE => ["key"; "dimension"]
  | MSHCOPY =>
      ["keyla"; "laptrn"; "lacopy"; "kcn"; "dx"; "dy"; "dz"; "tol"; "low";
      "high"]
  | MSHKEY => ["key"]
  | MSHMID => ["key"]
  | MSHPATTERN => ["key"]
  | NREFINE => ["nn1"; "nn2"; "ninc"; "level"; "depth"; "post"; "retain"]
  | PSMESH =>
      ["secid"; "name"; "p0"; "egroup"; "num"; "kcn"; "kdir"; "value";
      "ndplane"; "pstol"; "pstype"; "ecomp"; "ncomp"]
  | REAL => ["nset"]
  | RTHICK => ["par"; "iloc"; "jloc"; "kloc"; "lloc"]
  | SHPP => ["lab"; "value1"; "value2"]
  | SMRTSIZE =>
      ["sizlvl"; "fac"; "expnd"; "trans"; "angl"; "angh"; "gratio";
      "smhlc"; "smanc"; "mxitr"; "sprx"]
  | TCHG => ["ename1"; "ename2"; "etype2"]
  | TIMP => ["elem"; "chgbnd"; "implevel"]
  | TYPE => ["itype"]
  | VATT => ["mat"; "real"; "type_"; "esys"; "secnum"]
  | VCLEAR => ["nv1"; "nv2"; "ninc"]
  | VIMP => ["vol"; "chgbnd"; "implevel"]
  | VMESH => ["nv1"; "nv2"; "ninc"]
  | VEORIENT => ["vnum"; "option"; "value1"; "value2"]
  | VSWEEP => ["vnum"; "srca"; "trga"; "lsmo"]
  end.

Definition arity (m : method) : nat := length (parameters m).

Section Invoke.
Context {World Exn Resp : Type}.
Variable run : string -> Kwargs -> World -> Outcome Exn Resp * World.

(** Every parameter defaults to the empty string. *)
Definition supplied (a : option pyval) : pyval := default (VStr "") a.

(** A call [self.m(...)]: one entry per declared parameter, [None] for a
    parameter the caller leaves out, and the keyword options.  A list of
    another length is not a call of [m]. *)
Definition invoke (m : method) (args : list (option pyval))
    (kwargs : Kwargs) : option (M World Exn Call Resp Resp) :=
  match m with
  | ACCAT =>
      match args with
      | [a1; a2] => Some (accat run (supplied a1) (supplied a2) kwargs)
      | _ => None
      end
  | ACLEAR =>
      match args with
      | [a1; a2; a3] =>
          Some (aclear run (supplied a1) (supplied a2) (supplied a3) kwargs)
      | _ => None
      end
  | AESIZE =>
      match args with
      | [a1; a2] => Some (aesize run (supplied a1) (supplied a2) kwargs)
      | _ => None
      end
  | AMAP =>
      match args with
      | [a1; a2; a3; a4; a5] =>
          Some (amap run (supplied a1) (supplied a2) (supplied a3)
              (supplied a4) (supplied a5) kwargs)
      | _ => None
      end
  | AMESH =>
      match args with
      | [a1; a2; a3] =>
          Some (amesh run (supplied a1) (supplied a2) (supplied a3) kwargs)
      | _ => None
      end
  | AREFINE =>
      match args with
      | [a1; a2; a3; a4; a5; a6; a7] =>
          Some (arefine run (supplied a1) (supplied a2) (supplied a3)
              (supplied a4) (supplied a5) (supplied a6) (supplied a7) kwargs)
      | _ => None
      end
  | CHKMSH =>
      match args with
      | [a1] => Some (chkmsh run (supplied a1) kwargs)
      | _ => None
      end
  | CLRMSHLN =>
      match args with
      | [] => Some (clrmshln run kwargs)
      | _ => None
      end
  | CPCYC =>
      match args with
      | [a1; a2; a3; a4; a5; a6; a7] =>
          Some (cpcyc run (supplied a1) (supplied a2) (supplied a3)
              (supplied a4) (supplied a5) (supplied a6) (supplied a7) kwargs)
      | _ => None
      end
  | CZDEL =>
      match args with
      | [a1; a2; a3] =>
          Some (czdel run (supplied a1) (supplied a2) (supplied a3) kwargs)
      | _ => None
      end
  | CZMESH =>
      match args with
      | [a1; a2; a3; a4; a5; a6] =>
          Some (czmesh run (supplied a1) (supplied a2) (supplied a3)
              (supplied a4) (supplied a5) (supplied a6) kwargs)
      | _ => None
      end
  | DESIZE =>
      match args with
      | [a1; a2; a3; a4; a5; a6; a7; a8; a9] =>
          Some (desize run (supplied a1) (supplied a2) (supplied a3)
              (supplied a4) (supplied a5) (supplied a6) (supplied a7)
              (supplied a8) (supplied a9) kwargs)
      | _ => None
      end
  | EORIENT =>
      match args with
      | [a1; a2; a3] =>
          Some (eorient run (supplied a1) (supplied a2) (supplied a3) kwargs)
      | _ => None
      end
  | EREFINE =>
      match args with
      | [a1; a2; a3; a4; a5; a6; a7] =>
          Some (erefine run (supplied a1) (supplied a2) (supplied a3)
              (supplied a4) (supplied a5) (supplied a6) (supplied a7) kwargs)
      | _ => None
      end
  | ESIZE =>
      match args with
      | [a1; a2] => Some (esize run (supplied a1) (supplied a2) kwargs)
      | _ => None
      end
  | ESYS =>
      match args with
      | [a1] => Some (esys run (supplied a1) kwargs)
      | _ => None
      end
  | FVMESH =>
      match args with
      | [a1] => Some (fvmesh run (supplied a1) kwargs)
      | _ => None
      end
  | GSGDATA =>
      match args with
      | [a1; a2; a3; a4; a5] =>
          Some (gsgdata run (supplied a1) (supplied a2) (supplied a3)
              (supplied a4) (supplied a5) kwargs)
      | _ => None
      end
  | IMESH =>
      match args with
      | [a1; a2; a3; a4; a5; a6; a7; a8] =>
          Some (imesh run (supplied a1) (supplied a2) (supplied a3)
              (supplied a4) (supplied a5) (supplied a6) (supplied a7)
              (supplied a8) kwargs)
      | _ => None
      end
  | KATT =>
      match args with
      | [a1; a2; a3; a4] =>
          Some (katt run (supplied a1) (supplied a2) (supplied a3)
              (supplied a4) kwargs)
      | _ => None
      end
  | KCLEAR =>
      match args with
      | [a1; a2; a3] =>
          Some (kclear run (supplied a1) (supplied a2) (supplied a3) kwargs)
      | _ => None
      end
  | KESIZE =>
      match args with
      | [a1; a2; a3; a4] =>
          Some (kesize run (supplied a1) (supplied a2) (supplied a3)
              (supplied a4) kwargs)
      | _ => None
      end
  | KMESH =>
      match args with
      | [a1; a2; a3] =>
          Some (kmesh run (supplied a1) (supplied a2) (supplied a3) kwargs)
      | _ => None
      end
  | KREFINE =>
      match args with
      | [a1; a2; a3; a4; a5; a6; a7] =>
          Some (krefine run (supplied a1) (supplied a2) (supplied a3)
              (supplied a4) (supplied a5) (supplied a6) (supplied a7) kwargs)
      | _ => None
      end
  | KSCON =>
      match args with
      | [a1; a2; a3; a4; a5] =>
          Some (kscon run (supplied a1) (supplied a2) (supplied a3)
              (supplied a4) (supplied a5) kwargs)
      | _ => None
      end
  | LATT =>
      match args with
      | [a1; a2; a3; a4; a5; a6] =>
          Some (latt run (supplied a1) (supplied a2) (supplied a3)
              (supplied a4) (supplied a5) (supplied a6) kwargs)
      | _ => None
      end
  | LCCAT =>
      match args with
      | [a1; a2] => Some (lccat run (supplied a1) (supplied a2) kwargs)
      | _ => None
      end
  | LCLEAR =>
      match args with
      | [a1; a2; a3] =>
          Some (lclear run (supplied a1) (supplied a2) (supplied a3) kwargs)
      | _ => None
      end
  | LESIZE =>
      match args with
      | [a1; a2; a3; a4; a5; a6; a7; a8; a9] =>
          Some (lesize run (supplied a1) (supplied a2) (supplied a3)
              (supplied a4) (supplied a5) (supplied a6) (supplied a7)
              (supplied a8) (supplied a9) kwargs)
      | _ => None
      end
  | LMESH =>
      match args with
      | [a1; a2; a3] =>
          Some (lmesh run (supplied a1) (supplied a2) (supplied a3) kwargs)
      | _ => None
      end
  | LREFINE =>
      match args with
      | [a1; a2; a3; a4; a5; a6; a7] =>
          Some (lrefine run (supplied a1) (supplied a2) (supplied a3)
              (supplied a4) (supplied a5) (supplied a6) (supplied a7) kwargs)
      | _ => None
      end
  | MAT =>
      match args with
      | [a1] => Some (mat run (supplied a1) kwargs)
      | _ => None
      end
  | MCHECK =>
      match args with
      | [a1] => Some (mcheck run (supplied a1) kwargs)
      | _ => None
      end
  | MODMSH =>
      match args with
      | [a1] => Some (modmsh run (supplied a1) kwargs)
      | _ => None
      end
  | MOPT =>
      match args with
      | [a1; a2] => Some (mopt run (supplied a1) (supplied a2) kwargs)
      | _ => None
      end
  | MSHAPE =>
      match args with
      | [a1; a2] => Some (mshape run (supplied a1) (supplied a2) kwargs)
      | _ => None
      end
  | MSHCOPY =>
      match args with
      | [a1; a2; a3; a4; a5; a6; a7; a8; a9; a10] =>
          Some (mshcopy run (supplied a1) (supplied a2) (supplied a3)
              (supplied a4) (supplied a5) (supplied a6) (supplied a7)
              (supplied a8) (supplied a9) (supplied a10) kwargs)
      | _ => None
      end
  | MSHKEY =>
      match args with
      | [a1] => Some (mshkey run (supplied a1) kwargs)
      | _ => None
      end
  | MSHMID =>
      match args with
      | [a1] => Some (mshmid run (supplied a1) kwargs)
      | _ => None
      end
  | MSHPATTERN =>
      match args with
      | [a1] => Some (mshpattern run (supplied a1) kwargs)
      | _ => None
      end
  | NREFINE =>
      match args with
      | [a1; a2; a3; a4; a5; a6; a7] =>
          Some (nrefine run (supplied a1) (supplied a2) (supplied a3)
              (supplied a4) (supplied a5) (supplied a6) (supplied a7) kwargs)
      | _ => None
      end
  | PSMESH =>
      match args with
      | [a1; a2; a3; a4; a5; a6; a7; a8; a9; a10; a11; a12; a13] =>
          Some (psmesh run (supplied a1) (supplied a2) (supplied a3)
              (supplied a4) (supplied a5) (supplied a6) (supplied a7)
              (supplied a8) (supplied a9) (supplied a10) (supplied a11)
              (supplied a12) (supplied a13) kwargs)
      | _ => None
      end
  | REAL =>
      match args with
      | [a1] => Some (real run (supplied a1) kwargs)
      | _ => None
      end
  | RTHICK =>
      match args with
      | [a1; a2; a3; a4; a5] =>
          Some (rthick run (supplied a1) (supplied a2) (supplied a3)
              (supplied a4) (supplied a5) kwargs)
      | _ => None
      end
  | SHPP =>
      match args with
      | [a1; a2; a3] =>
          Some (shpp run (supplied a1) (supplied a2) (supplied a3) kwargs)
      | _ => None
      end
  | SMRTSIZE =>
      match args with
      | [a1; a2; a3; a4; a5; a6; a7; a8; a9; a10; a11] =>
          Some (smrtsize run (supplied a1) (supplied a2) (supplied a3)
              (supplied a4) (supplied a5) (supplied a6) (supplied a7)
              (supplied a8) (supplied a9) (supplied a10) (supplied a11)
              kwargs)
      | _ => None
      end
  | TCHG =>
      match args with
      | [a1; a2; a3] =>
          Some (tchg run (supplied a1) (supplied a2) (supplied a3) kwargs)
      | _ => None
      end
  | TIMP =>
      match args with
      | [a1; a2; a3] =>
          Some (timp run (supplied a1) (supplied a2) (supplied a3) kwargs)
      | _ => None
      end
  | TYPE =>
      match args with
      | [a1] => Some (type run (supplied a1) kwargs)
      | _ => None
      end
  | VATT =>
      match args with
      | [a1; a2; a3; a4; a5] =>
          Some (vatt run (supplied a1) (supplied a2) (supplied a3)
              (supplied a4) (supplied a5) kwargs)
      | _ => None
      end
  | VCLEAR =>
      match args with
      | [a1; a2; a3] =>
          Some (vclear run (supplied a1) (supplied a2) (supplied a3) kwargs)
      | _ => None
      end
  | VIMP =>
      match args with
      | [a1; a2; a3] =>
          Some (vimp run (supplied a1) (supplied a2) (supplied a3) kwargs)
      | _ => None
      end
  | VMESH =>
      match args with
      | [a1; a2; a3] =>
          Some (vmesh run (supplied a1) (supplied a2) (supplied a3) kwargs)
      | _ => None
      end
  | VEORIENT =>
      match args with
      | [a1; a2; a3; a4] =>
          Some (veorient run (supplied a1) (supplied a2) (supplied a3)
              (supplied a4) kwargs)
      | _ => None
      end
  | VSWEEP =>
      match args with
      | [a1; a2; a3; a4] =>
          Some (vsweep run (supplied a1) (supplied a2) (supplied a3)
              (supplied a4) kwargs)
      | _ => None
      end
  end.

End Invoke.

(** The command line as the specification words it: the keyword and the
    parameters, in declared order, separated by commas. *)
Definition claimed_command (m : method) (ps : list pyval) : string :=
  String.concat "," (apdl_command m :: (format <$> ps)).

(** The fields of a command line the methods other than [latt] build:
    the keyword, a comma, and the parameters joined by commas. *)
Definition command_line (m : method) (ps : list pyval) : string :=
  apdl_command m +:+ "," +:+ String.concat "," (format <$> ps).

(** Two [run]s for examples, on a world with no state of its own: one
    answers [None] to every command, the other rejects every command. *)
Definition silent_run (command : string) (kwargs : Kwargs) (w : unit)
  : Outcome string pyval * unit :=
  (Returned VNone, w).

Definition failing_run (command : string) (kwargs : Kwargs) (w : unit)
  : Outcome string pyval * unit :=
  (Raised "MapdlRuntimeError", w).

End Meshing.

(** ** The click command [submit] *)

Module Hpc.

(** [os.path.join(a, b)], as [posixpath] defines it. *)
Definition endswith_sep (a : string) : bool :=
  match last (String.list_ascii_of_string a) with
  | Some c => Ascii.eqb c "/"%char
  | None => false
  end.

Definition os_path_join (a b : string) : string :=
  if String.prefix "/" b then b
  else if String.eqb a "" || endswith_sep a then a +:+ b
  else a +:+ "/" +:+ b.

(** Lookup in a [dict]. *)
Fixpoint dict_get (key : string) (d : dict) : option pyval :=
  match d with
  | [] => None
  | (k, v) :: d' => if String.eqb k key then Some v else dict_get key d'
  end.

(** The parameters of [submit]; click passes every one of them on every
    invocation, so the defaults of the signature are never used. *)
Record Args : Type := {
  main_file : pyval;
  name : pyval;
  url : pyval;
  user : pyval;
  password : pyval;
  python : pyval;
  output_files : pyval;
  shell_file : pyval;
  requirements_file : pyval;
  extra_files : pyval;
  config_file : pyval;
  num_cores : pyval;
  memory : pyval;
  disk_space : pyval;
  exclusive : pyval;
  max_execution_time : pyval;
  wait : pyval;
  save_config_file : pyval
}.

Section Submit.
Context {World Exn Proj File : Type}.

(** The external calls [submit] makes. *)
Inductive Call : Type :=
  | os_getcwd_call
  | get_value_call (arg json_file : pyval) (key : string)
      (default_value : pyval)
  | create_job_call (kwargs : dict)
  | open_call (file : pyval) (mode : string)
  | json_dump_call (obj : dict) (fp : File)
  | exit_call (fp : File)
  | print_call (s : string)
  | wait_call (proj : Proj) (evaluated failed : bool).

(** What they return. *)
Inductive Ret : Type :=
  | RVal (v : pyval)
  | RProj (proj : Proj)
  | RFile (fp : File).

Local Abbreviation Ext A := (World -> Outcome Exn A * World).
Local Abbreviation M := (M World Exn Call Ret).

(** [os.getcwd], the three functions imported from
    [ansys.mapdl.core.hpc.pyhps], [open], [json.dump], the [__exit__] of
    a file, and [print]. *)
Record Externals : Type := {
  os_getcwd : Ext string;
  get_value_from_json_or_default :
    pyval -> pyval -> string -> pyval -> Ext pyval;
  create_pymapdl_pyhps_job : dict -> Ext Proj;
  wait_for_completion : Proj -> bool -> bool -> Ext pyval;
  open_ : pyval -> string -> Ext File;
  json_dump : dict -> File -> Ext unit;
  file_exit : File -> Ext unit;
  print : string -> Ext unit
}.

Variable ext : Externals.

Definition RNone {A} (_ : A) : Ret := RVal VNone.

Definition call_os_getcwd : M string :=
  external os_getcwd_call (fun s => RVal (VStr s)) (os_getcwd ext).

Definition call_get_value (arg json_file : pyval) (key : string)
    (default_value : pyval) : M pyval :=
  external (get_value_call arg json_file key default_value) RVal
    (get_value_from_json_or_default ext arg json_file key default_value).

Definition call_create_job (kwargs : dict) : M Proj :=
  external (create_job_call kwargs) RProj
    (create_pymapdl_pyhps_job ext kwargs).

Definition call_wait_for_completion (proj : Proj) (evaluated failed : bool)
  : M pyval :=
  external (wait_call proj evaluated failed) RVal
    (wait_for_completion ext proj evaluated failed).

Definition call_print (s : string) : M unit :=
  external (print_call s) RNone (print ext s).

Definition call_json_dump (obj : dict) (fp : File) : M unit :=
  external (json_dump_call obj fp) RNone (json_dump ext obj fp).

(** [with open(file, mode) as fid: body]. *)
Definition with_open {A} (file : pyval) (mode : string)
    (body : File -> M A) : M A :=
  fid <- external (open_call file mode) RFile (open_ ext file mode);;
  try_finally (body fid) (external (exit_call fid) RNone (file_exit ext fid)).

(** [def submit(main_file, name, ..., save_config_file)], line 154. *)
Definition submit (a : Args) : M unit :=
  config_file <-
    (if is_None a.(config_file) then
       cwd <- call_os_getcwd;;
       ret (VStr (os_path_join cwd "hps_config.json"))
     else ret a.(config_file));;
  url <- call_get_value a.(url) config_file "url" VNone;;
  user <- call_get_value a.(user) config_file "user" VNone;;
  password <- call_get_value a.(password) config_file "password" VNone;;
  python <- call_get_value a.(python) config_file "python" (VInt 3);;
  name <- call_get_value a.(name) config_file "name" (VStr "My PyMAPDL job");;
  num_cores <- call_get_value a.(num_cores) config_file "num_cores" (VInt 1);;
  memory <- call_get_value a.(memory) config_file "memory" (VInt 100);;
  disk_space <-
    call_get_value a.(disk_space) config_file "disk_space" (VInt 100);;
  exclusive <-
    call_get_value a.(exclusive) config_file "exclusive" (VBool false);;
  max_execution_time <-
    call_get_value a.(max_execution_time) config_file "max_execution_time"
      (VInt 1000);;
  proj <- call_create_job
    [ ("main_file", a.(main_file));
      ("name", name);
      ("url", url);
      ("user", user);
      ("password", password);
      ("python", python);
      ("output_files", a.(output_files));
      ("shell_file", a.(shell_file));
      ("requirements_file", a.(requirements_file));
      ("extra_files", a.(extra_files));
      ("config_file", config_file);
      ("num_cores", num_cores);
      ("memory", memory);
      ("disk_space", disk_space);
      ("exclusive", exclusive);
      ("max_execution_time", max_execution_time) ];;
  when (truthy a.(save_config_file))
    (let config :=
       [ ("url", url);
         ("user", user);
         ("password", password);
         ("python", python);
         ("name", name);
         ("num_cores", num_cores);
         ("memory", memory);
         ("disk_space", disk_space);
         ("exclusive", exclusive);
         ("max_execution_time", max_execution_time) ] in
     with_open config_file "w" (fun fid => call_json_dump config fid));;;
  when (truthy a.(wait))
    (call_print
       ("Waiting for project " +:+ format name +:+ " to be completed...");;;
     _ <- call_wait_for_completion proj true true;;
     ret tt).

(** What a call says about the configuration file, the resolution of a
    parameter, and the job submitted. *)
Definition config_file_of (c : Call) : option pyval :=
  match c with
  | get_value_call _ json_file _ _ => Some json_file
  | create_job_call kwargs => dict_get "config_file" kwargs
  | open_call file _ => Some file
  | _ => None
  end.

Definition get_value_of (c : Call) : option (pyval * string * pyval) :=
  match c with
  | get_value_call arg _ key default_value => Some (arg, key, default_value)
  | _ => None
  end.

Definition kwargs_of (c : Call) : option dict :=
  match c with
  | create_job_call kwargs => Some kwargs
  | _ => None
  end.

Definition is_wait (c : Call) : bool :=
  match c with
  | wait_call _ _ _ => true
  | _ => false
  end.

Definition is_print (c : Call) : bool :=
  match c with
  | print_call _ => true
  | _ => false
  end.

Definition is_os_getcwd (c : Call) : bool :=
  match c with
  | os_getcwd_call => true
  | _ => false
  end.

(** An entry of the log that is no [os.getcwd] and names no configuration
    file but [path]. *)
Definition uses_config_file (path : pyval)
    (ev : Call * Outcome Exn Ret) : Prop :=
  is_os_getcwd ev.1 = false /\
  from_option (eq path) True (config_file_of ev.1).

(** Nothing is called after a call that raised, except the [__exit__] of
    the file a failed [json.dump] was writing to. *)
Fixpoint no_call_after_raise (log : list (Call * Outcome Exn Ret)) : Prop :=
  match log with
  | [] => True
  | (c, Raised _) :: post =>
      match c, post with
      | _, [] => True
      | json_dump_call _ fp, [(exit_call fp', _)] => fp = fp'
      | _, _ => False
      end
  | (_, Returned _) :: post => no_call_after_raise post
  end.

End Submit.

Arguments Call : clear implicits.
Arguments Ret : clear implicits.
Arguments Externals : clear implicits.

(** *** The command line

    Sixteen options are declared [default=None, type=str]: when one is
    given its value reaches [submit] as the string typed, otherwise as
    [None].  [--save_config_file] is declared [default=False, type=bool];
    [cl_save_config_file] is the boolean click converted it to, when it
    is given. *)
Record CommandLine : Type := {
  cl_main_file : string;
  cl_options : gmap string string;
  cl_save_config_file : option bool
}.

Definition str_option (cl : CommandLine) (opt : string) : pyval :=
  from_option VStr VNone (cl_options cl !! opt).

Definition click_args (cl : CommandLine) : Args :=
  {| main_file := VStr (cl_main_file cl);
     name := str_option cl "name";
     url := str_option cl "url";
     user := str_option cl "user";
     password := str_option cl "password";
     python := str_option cl "python";
     output_files := str_option cl "output_files";
     shell_file := str_option cl "shell_file";
     requirements_file := str_option cl "requirements_file";
     extra_files := str_option cl "extra_files";
     config_file := str_option cl "config_file";
     num_cores := str_option cl "num_cores";
     memory := str_option cl "memory";
     disk_space := str_option cl "disk_space";
     exclusive := str_option cl "exclusive";
     max_execution_time := str_option cl "max_execution_time";
     wait := str_option cl "wait";
     save_config_file := VBool (default false (cl_save_config_file cl)) |}.

(** *** The ten submission parameters

    Each with the argument of [submit] it comes from and the default the
    source passes for it. *)
Definition submit_parameters : list (string * (Args -> pyval) * pyval) :=
  [ ("url", url, VNone);
    ("user", user, VNone);
    ("password", password, VNone);
    ("python", python, VInt 3);
    ("name", name, VStr "My PyMAPDL job");
    ("num_cores", num_cores, VInt 1);
    ("memory", memory, VInt 100);
    ("disk_space", disk_space, VInt 100);
    ("exclusive", exclusive, VBool false);
    ("max_execution_time", max_execution_time, VInt 1000) ].

(** The resolution order the specification states: the explicit argument
    when provided, else the value of the configuration file when present,
    else the default. *)
Definition provided (arg : pyval) : bool :=
  match arg with
  | VNone => false
  | VStr s => negb (String.eqb s "")
  | _ => true
  end.


(** *** A host to run [submit] on

    The local machine is a working directory, a file system and the
    standard output; everything behind the PyHPS calls is [Cluster].  A
    file either holds a JSON object or something [json.load] rejects. *)
Inductive content : Type :=
  | Json (obj : dict)
  | NotJson.

Section Host.
Context {Cluster Proj : Type}.

Record World : Type := {
  cwd : string;
  files : gmap string content;
  locked : gset string;
  stdout : list string;
  cluster : Cluster
}.

(** Exceptions, by class name. *)
Definition exn : Type := string.

Local Abbreviation Ext A := (World -> Outcome exn A * World).

(** The PyHPS functions read the host and act on the cluster. *)
Definition Remote (A : Type) : Type := World -> Outcome exn A * Cluster.

Definition remote {A} (f : Remote A) : Ext A :=
  fun w =>
    let '(o, c) := f w in
    (o, {| cwd := cwd w; files := files w; locked := locked w;
           stdout := stdout w; cluster := c |}).

Definition file_at (w : World) (path : pyval) : option content :=
  match path with
  | VStr p => files w !! p
  | _ => None
  end.

(** Modelled from the spec: [get_value_from_json_or_default] of
    [ansys.mapdl.core.hpc.pyhps], which is not among the sources.  "Use
    the explicit argument if provided and non-empty; otherwise read the
    corresponding key from the JSON configuration file if present;
    otherwise use a fixed default"; malformed JSON propagates as the
    error of the JSON reader. *)
Definition get_value_from_json_or_default_spec
    (arg json_file : pyval) (key : string) (default_value : pyval)
  : Remote pyval :=
  fun w =>
    if provided arg then (Returned arg, cluster w)
    else
      match file_at w json_file with
      | Some (Json config) =>
          (Returned (default default_value (dict_get key config)), cluster w)
      | Some NotJson => (Raised "JSONDecodeError", cluster w)
      | None => (Returned default_value, cluster w)
      end.

(** [open(file, "w")] creates or truncates the file, unless it cannot be
    written; the file object is represented by its path. *)
Definition host_open (file : pyval) (mode : string) : Ext string :=
  fun w =>
    match file with
    | VStr p =>
        if decide (p ∈ locked w) then (Raised "PermissionError", w)
        else
          (Returned p,
           {| cwd := cwd w; files := <[p := NotJson]> (files w);
              locked := locked w; stdout := stdout w;
              cluster := cluster w |})
    | _ => (Raised "TypeError", w)
    end.

(** [json.dump(obj, fp)] writes the object. *)
Definition host_json_dump (obj : dict) (fp : string) : Ext unit :=
  fun w =>
    (Returned tt,
     {| cwd := cwd w; files := <[fp := Json obj]> (files w);
        locked := locked w; stdout := stdout w; cluster := cluster w |}).

Definition host_print (s : string) : Ext unit :=
  fun w =>
    (Returned tt,
     {| cwd := cwd w; files := files w; locked := locked w;
        stdout := stdout w ++ [s]; cluster := cluster w |}).

Definition host_externals
    (get_value : pyval -> pyval -> string -> pyval -> Remote pyval)
    (create_job : dict -> Remote Proj)
    (wait_job : Proj -> bool -> bool -> Remote pyval)
  : Externals World exn Proj string :=
  {| os_getcwd := fun w => (Returned (cwd w), w);
     get_value_from_json_or_default :=
       fun arg json_file key default_value =>
         remote (get_value arg json_file key default_value);
     create_pymapdl_pyhps_job := fun kwargs => remote (create_job kwargs);
     wait_for_completion :=
       fun proj evaluated failed => remote (wait_job proj evaluated failed);
     open_ := host_open;
     json_dump := host_json_dump;
     file_exit := fun _ w => (Returned tt, w);
     print := host_print |}.

(** The path [submit] reads and writes its configuration at. *)
Definition config_path (w : World) (a : Args) : pyval :=
  if is_None a.(config_file)
  then VStr (os_path_join (cwd w) "hps_config.json")
  else a.(config_file).


(** The configuration [submit] saves for a job submitted with [kwargs]. *)
Definition saved_config (kwargs : dict) : dict :=
  (fun '(key, _, _) => (key, default VNone (dict_get key kwargs)))
    <$> submit_parameters.

End Host.

Arguments World : clear implicits.

(** *** A small cluster, for examples

    The cluster counts the jobs it has been given; a project is the
    number of its job.  [busy_wait] is a completion check that fails. *)
Definition count_job (kwargs : dict) : Remote (Cluster := nat) nat :=
  fun w => (Returned (cluster w), S (cluster w)).

Definition done_wait (proj : nat) (evaluated failed : bool)
  : Remote (Cluster := nat) pyval :=
  fun w => (Returned VNone, cluster w).

Definition busy_wait (proj : nat) (evaluated failed : bool)
  : Remote (Cluster := nat) pyval :=
  fun w => (Raised "HPSError", cluster w).

Definition spec_host : Externals (World nat) exn nat string :=
  host_externals get_value_from_json_or_default_spec count_job done_wait.

Definition busy_host : Externals (World nat) exn nat string :=
  host_externals get_value_from_json_or_default_spec count_job busy_wait.

Definition home : World nat :=
  {| cwd := "/home/user";
     files :=
       {[ "/home/user/hps_config.json" :=
            Json [("num_cores", VInt 4); ("queue", VStr "night")] ]};
     locked := ∅;
     stdout := [];
     cluster := 0 |}.

(** [pymapdl submit main.py --name job --wait False --save_config_file
    true] *)
Definition command_line : CommandLine :=
  {| cl_main_file := "main.py";
     cl_options := {[ "name" := "job"; "wait" := "False" ]};
     cl_save_config_file := Some true |}.

(** The keyword arguments the factory receives for that command line in
    [home]. *)
Definition submitted : dict :=
  [ ("main_file", VStr "main.py");
    ("name", VStr "job");
    ("url", VNone);
    ("user", VNone);
    ("password", VNone);
    ("python", VInt 3);
    ("output_files", VNone);
    ("shell_file", VNone);
    ("requirements_file", VNone);
    ("extra_files", VNone);
    ("config_file", VStr "/home/user/hps_config.json");
    ("num_cores", VInt 4);
    ("memory", VInt 100);
    ("disk_space", VInt 100);
    ("exclusive", VBool false);
    ("max_execution_time", VInt 1000) ].

End Hpc.

(** ** Reading a command line back *)

Module Wire.
Import Meshing.

(** [s.split(",")]: the fields of a command line. *)
Fixpoint fields (s : string) : list string :=
  match s with
  | EmptyString => [""]
  | String c s' =>
      if Ascii.eqb c "," then "" :: fields s'
      else
        match fields s' with
        | f :: fs => String c f :: fs
        | [] => [String c ""]
        end
  end.

(** [s.count(",")]. *)
Fixpoint count_commas (s : string) : nat :=
  match s with
  | EmptyString => 0
  | String c s' => (if Ascii.eqb c "," then 1 else 0) + count_commas s'
  end.

(** Where the formatted parameters of a method stand among the fields
    that follow the keyword. *)
Definition layout (m : method) (ps : list string) : list string :=
  match m with
  | LATT => take 3 ps ++ "" :: drop 3 ps
  | CLRMSHLN => [""]
  | _ => ps
  end.

(** The command lines a computation passed to [run]. *)
Definition commands_sent {World Exn Resp A : Type}
    (mc : M World Exn Call Resp A) (w : World) : list string :=
  (fun ev => ev.1.1) <$> calls mc w.

End Wire.

(** ** The stubs, and what a log says about a run *)

Module HpcTrace.
Import Hpc.

Section Stubs.
Context {World Exn Call Ret : Type}.

(** [def list_jobs(): pass], line 246. *)
Definition list_jobs : M World Exn Call Ret unit := ret tt.

(** [def stop_job(): pass], line 250. *)
Definition stop_job : M World Exn Call Ret unit := ret tt.

End Stubs.

(** The keyword arguments of the call of [create_pymapdl_pyhps_job], in
    the order of the source. *)
Definition job_keywords : list string :=
  [ "main_file"; "name"; "url"; "user"; "password"; "python";
    "output_files"; "shell_file"; "requirements_file"; "extra_files";
    "config_file"; "num_cores"; "memory"; "disk_space"; "exclusive";
    "max_execution_time" ].

(** The position of a key in a list of keys (its length when absent). *)
Fixpoint position (key : string) (keys : list string) : nat :=
  match keys with
  | [] => 0
  | k :: keys' => if String.eqb k key then 0 else S (position key keys')
  end.

Section Trace.
Context {Exn Proj File : Type}.

Local Abbreviation Entry :=
  (Call Proj File * Outcome Exn (Ret Proj File))%type.

(** The place of a call in the text of [submit]: [os.getcwd], the ten
    resolutions in the order of [submit_parameters], the factory, [open],
    [json.dump], the [__exit__] of the file, [print], the completion
    check. *)
Definition phase (c : Call Proj File) : nat :=
  match c with
  | os_getcwd_call => 0
  | get_value_call _ _ key _ =>
      S (position key ((fun p => p.1.1) <$> submit_parameters))
  | create_job_call _ => 12
  | open_call _ _ => 13
  | json_dump_call _ _ => 14
  | exit_call _ => 15
  | print_call _ => 16
  | wait_call _ _ _ => 17
  end.

(** The jobs the factory returned: keyword arguments and project. *)
Definition created (log : list Entry) : list (dict * Proj) :=
  omap
    (fun ev : Entry =>
       match ev with
       | (create_job_call kwargs, Returned (RProj proj)) =>
           Some (kwargs, proj)
       | _ => None
       end)
    log.

(** The calls on files: [open], [json.dump] and [__exit__]. *)
Definition file_calls (log : list Entry) : list Entry :=
  omap
    (fun ev : Entry =>
       match ev.1 with
       | open_call _ _ | json_dump_call _ _ | exit_call _ => Some ev
       | _ => None
       end)
    log.

(** The lines printed. *)
Definition printed (log : list Entry) : list string :=
  omap
    (fun ev : Entry =>
       match ev.1 with
       | print_call s => Some s
       | _ => None
       end)
    log.

End Trace.

End HpcTrace.

(** [pymapdl submit next.py --config_file /home/user/hps_config.json]:
    nothing but the script and the configuration file. *)
Definition reload_line : Hpc.CommandLine :=
  {| Hpc.cl_main_file := "next.py";
     Hpc.cl_options := {[ "config_file" := "/home/user/hps_config.json" ]};
     Hpc.cl_save_config_file := None |}.

(** * Properties of the command formatters *)

Module MeshingFacts.
Import Meshing.

Section Formatters.
Context {World Exn Resp : Type}.
Variable run : string -> Kwargs -> World -> Outcome Exn Resp * World.

Lemma self_run_eq (command : string) (kwargs : Kwargs) (w : World)
    (l : Log Exn Call Resp) :
  self_run run command kwargs (w, l) =
  (fst (run command kwargs w),
   (snd (run command kwargs w),
    l ++ [((command, kwargs), fst (run command kwargs w))])).
Proof.
  unfold self_run, external; simpl.
  destruct (run command kwargs w) as [o w']; simpl.
  by destruct o.
Qed.

(** Every method is one [self.run] of some command line with the keyword
    options it was given. *)
Lemma invoke_is_run (m : method) (args : list (option pyval))
    (kwargs : Kwargs) :
  length args = arity m ->
  exists command, invoke run m args kwargs = Some (self_run run command kwargs).
Proof.
  intros Hlen.
  destruct m; cbn in Hlen;
    repeat (destruct args as [|? args]; try discriminate Hlen);
    eexists; reflexivity.
Qed.

(** C1, as amended: every method other than [latt], called with one
    value or omission per declared parameter, passes to [run] the
    keyword, a comma, and the parameters in declared order joined by
    commas, an omitted parameter being the empty string.  A method
    without parameters, [clrmshln], so passes its keyword and a comma. *)
Theorem formatter_command_line (m : method) (args : list (option pyval))
    (kwargs : Kwargs) :
  m <> LATT ->
  length args = arity m ->
  invoke run m args kwargs =
  Some (self_run run (command_line m (supplied <$> args)) kwargs).
Proof.
  intros Hm Hlen.
  destruct m; try congruence; cbn in Hlen;
    repeat (destruct args as [|? args]; try discriminate Hlen);
    reflexivity.
Qed.

(** C4: every method makes one call of [run], with the keyword options
    it was given, and ends as that call ends: it returns what [run]
    returns, raises what [run] raises, and leaves the world [run] leaves. *)
Theorem formatter_forwards (m : method) (args : list (option pyval))
    (kwargs : Kwargs) :
  length args = arity m ->
  exists command method_call,
    invoke run m args kwargs = Some method_call /\
    forall w l,
      method_call (w, l) =
      (fst (run command kwargs w),
       (snd (run command kwargs w),
        l ++ [((command, kwargs), fst (run command kwargs w))])).
Proof.
  intros Hlen.
  destruct (invoke_is_run m args kwargs Hlen) as [command Hinv].
  exists command, (self_run run command kwargs).
  split; [exact Hinv|].
  intros w l. apply self_run_eq.
Qed.

(** C8: for all arguments [latt] passes the keyword and seven
    comma-separated fields, ["LATT,{mat},{real},{type_},,{kb},{ke},
    {secnum}"]: the fourth field is always empty, so that [kb], [ke] and
    [secnum] are fields 5 to 7 rather than the ones after [type_]; with
    every parameter omitted it passes ["LATT,,,,,,,"]. *)
Theorem latt_command_line (mat real type_ kb ke secnum : pyval)
    (kwargs : Kwargs) :
  let fields :=
    ["LATT"; format mat; format real; format type_; "";
     format kb; format ke; format secnum] in
  latt run mat real type_ kb ke secnum kwargs =
    self_run run (String.concat "," fields) kwargs /\
  fields !! 4%nat = Some "" /\
  fields !! 5%nat = Some (format kb) /\
  fields !! 6%nat = Some (format ke) /\
  fields !! 7%nat = Some (format secnum) /\
  invoke run LATT (replicate 6 None) kwargs =
    Some (self_run run "LATT,,,,,,," kwargs).
Proof.
  repeat split; reflexivity.
Qed.

End Formatters.

(** C1, as stated, fails on [latt]: with every parameter omitted the
    command passed to [run] is ["LATT,,,,,,,"], one field more than the
    keyword followed by the six parameters. *)
Lemma latt_breaks_claimed_command :
  invoke silent_run LATT (replicate 6 None) [] <>
  Some (self_run silent_run
          (claimed_command LATT (supplied <$> replicate 6 None)) []).
Proof.
  intros H.
  apply (f_equal (fun call => from_option (fun c => snd (snd (c (tt, []))))
                                [] call)) in H.
  vm_compute in H. discriminate H.
Qed.

(** [vmesh] with [nv1="1"] and the rest omitted passes ["VMESH,1,,"]. *)
Lemma formatter_command_line_vmesh :
  VMESH <> LATT /\
  length [Some (VStr "1"); None; None] = arity VMESH /\
  invoke silent_run VMESH [Some (VStr "1"); None; None] [] =
  Some (self_run silent_run "VMESH,1,," []).
Proof.
  split; [discriminate|]. split; [reflexivity|].
  apply (formatter_command_line silent_run VMESH
           [Some (VStr "1"); None; None] []);
    [discriminate | reflexivity].
Defined.

(** [esys] with [kcn=12] and a keyword option. *)
Lemma formatter_forwards_esys :
  length [Some (VInt 12)] = arity ESYS /\
  exists command method_call,
    invoke silent_run ESYS [Some (VInt 12)] [("mute", VBool true)] =
      Some method_call /\
    forall w l,
      method_call (w, l) =
      (fst (silent_run command [("mute", VBool true)] w),
       (snd (silent_run command [("mute", VBool true)] w),
        l ++ [((command, [("mute", VBool true)]),
               fst (silent_run command [("mute", VBool true)] w))])).
Proof.
  split; [reflexivity|].
  apply (formatter_forwards silent_run ESYS [Some (VInt 12)]
           [("mute", VBool true)]).
  reflexivity.
Defined.

End MeshingFacts.

(** * Properties of [submit] *)

Module HpcFacts.
Import Hpc.

Lemma snoc_last {A} (y : A) : [y] = [] ++ [y].
Proof. reflexivity. Qed.

Lemma snoc_cons {A} (x y : A) (l pre : list A) :
  l = pre ++ [y] -> x :: l = (x :: pre) ++ [y].
Proof. intros ->. reflexivity. Qed.

(** Splits a list given by its elements into its last element and the
    elements before it. *)
Ltac split_last := repeat first [apply snoc_last | apply snoc_cons].

Lemma split_here {A} (t : list A) : t = [] ++ t.
Proof. reflexivity. Qed.

Lemma split_later {A} (x : A) (l pre t : list A) :
  l = pre ++ t -> x :: l = (x :: pre) ++ t.
Proof. intros ->. reflexivity. Qed.

(** Splits a list given by its elements where a given tail begins. *)
Ltac split_at := repeat first [apply split_here | apply split_later].

(** Settles the conditions of a statement on a path that did or did not
    test them. *)
Ltac settle_conditions :=
  repeat match goal with
    | E : ?c = _ |- context [if ?c then _ else _] => rewrite E
    | |- context [if ?c then _ else _] => destruct c
    end.

(** Finds a call in a log given by its entries. *)
Ltac find_call H :=
  rewrite list_elem_of_In in H; simpl in H;
  repeat match type of H with
    | _ \/ _ => destruct H as [H|H]
    | False => destruct H
    | (_, _) = (_, _) => try discriminate H
    end.

(** ** With any behaviour of the external calls *)

Section Submit.
Context {World Exn Proj File : Type}.
Variable ext : Externals World Exn Proj File.

(** Symbolic execution of one run: case analysis on the outcome of every
    external call and on every condition, in program order. *)
Ltac run_call H :=
  match type of H with
  | context [match (if ?b then _ else _) _ with pair _ _ => _ end] =>
      let E := fresh "E" in
      destruct b eqn:E; simpl in H
  | (if ?b then _ else _) _ = _ =>
      let E := fresh "E" in
      destruct b eqn:E; simpl in H
  | context [match ?f ?w with pair _ _ => _ end] =>
      let o := fresh "o" in
      let w' := fresh "w" in
      let E := fresh "E" in
      destruct (f w) as [o w'] eqn:E; destruct o; simpl in H
  end.

Ltac run_submit a w :=
  let H := fresh "Hrun" in
  let r := fresh "r" in
  let w' := fresh "w" in
  let log := fresh "log" in
  unfold result, calls, final;
  destruct (submit ext a (w, [])) as [r [w' log]] eqn:H; simpl;
  unfold submit, with_open, when, try_finally, bind, ret,
    call_os_getcwd, call_get_value, call_create_job, call_print,
    call_json_dump, call_wait_for_completion, external in H;
  simpl in H;
  repeat run_call H;
  injection H as <- <- <-.

(** [submit] ends as its last failing call ends, and calls nothing after
    a failure; a call that fails, the [json.dump] inside the [with] block
    apart, is therefore the last call and its exception is the exception
    of [submit]. *)
Lemma submit_propagates (a : Args) (w : World) :
  let r := result (submit ext a) w in
  let log := calls (submit ext a) w in
  r = from_option Raised (Returned tt) (last_raised log) /\
  no_call_after_raise log /\
  forall c e,
    (c, Raised e) ∈ log ->
    (forall obj fp, c <> json_dump_call obj fp) ->
    r = Raised e.
Proof.
  cbv zeta.
  run_submit a w.
  all: split; [reflexivity|]; split; [simpl; auto|].
  all: intros call exc Hin Hc; find_call Hin.
  all: try (injection Hin as <- <-); try reflexivity.
  all: exfalso; eapply Hc; reflexivity.
Qed.

(** C5: when [wait] is truthy, either the last call of [submit] is
    [wait_for_completion(proj, evaluated=True, failed=True)] on the
    project the factory returned, no completion check precedes it, and
    [submit] ends as that call ends (so it does not return before the
    check does), or a step before the check raised and no check was
    made; when [wait] is not truthy the completion check is never
    called. *)
Theorem submit_waits (a : Args) (w : World) :
  let r := result (submit ext a) w in
  let log := calls (submit ext a) w in
  if truthy a.(wait) then
    (exists pre kwargs proj o,
       log = pre ++ [(wait_call proj true true, o)] /\
       (create_job_call kwargs, Returned (RProj proj)) ∈ pre /\
       Forall (fun ev => is_wait ev.1 = false) pre /\
       r = outcome_map (fun _ => tt) o) \/
    (exists e, r = Raised e /\ Forall (fun ev => is_wait ev.1 = false) log)
  else Forall (fun ev => is_wait ev.1 = false) log.
Proof.
  cbv zeta.
  run_submit a w.
  all: settle_conditions.
  all: try solve [repeat constructor].
  all: try solve [right; eexists; split; [reflexivity | repeat constructor]].
  all: left; do 4 eexists; split; [split_last|];
    (split; [|split; [repeat constructor | reflexivity]]).
  all: rewrite list_elem_of_In; simpl; tauto.
Qed.

(** C7: without a [config_file] argument the first call is [os.getcwd]
    and, when it returns, the configuration path is [os.path.join] of the
    directory returned and ["hps_config.json"], which is that name inside
    that directory; with a [config_file] argument [os.getcwd] is not
    called and the path is the argument itself.  The path is used: the
    resolution of [url], which comes next, names it, as does every call
    that names a configuration file (the resolutions, [open]); the factory
    receives it as [config_file]; and when [submit] returns, all ten
    resolutions and the factory were called, and [open] was called on it
    for writing if [save_config_file] is true. *)
Theorem submit_config_file (a : Args) (w : World) :
  let r := result (submit ext a) w in
  let log := calls (submit ext a) w in
  let named :=
    fun (path : pyval)
        (rest : list (Call Proj File * Outcome Exn (Ret Proj File))) =>
      (exists o rest',
         rest = (get_value_call a.(url) path "url" VNone, o) :: rest') /\
      Forall (uses_config_file path) rest /\
      Forall (fun kwargs => dict_get "config_file" kwargs = Some path)
        (omap (fun ev => kwargs_of ev.1) rest) /\
      match r with
      | Returned _ =>
          length (omap (fun ev => get_value_of ev.1) rest) = 10%nat /\
          length (omap (fun ev => kwargs_of ev.1) rest) = 1%nat /\
          if truthy a.(save_config_file)
          then exists fid, (open_call path "w", Returned (RFile fid)) ∈ rest
          else True
      | Raised _ => True
      end in
  (if is_None a.(config_file) then
     exists o rest,
       log = (os_getcwd_call, o) :: rest /\
       match o with
       | Returned (RVal (VStr cwd)) =>
           named (VStr (os_path_join cwd "hps_config.json")) rest
       | _ => rest = []
       end
   else named a.(config_file) log) /\
  forall cwd,
    os_path_join cwd "hps_config.json" =
    if String.eqb cwd "" || endswith_sep cwd
    then cwd +:+ "hps_config.json"
    else cwd +:+ "/hps_config.json".
Proof.
  cbv zeta. split; [|intros cwd; reflexivity].
  run_submit a w.
  all: settle_conditions.
  all: try (do 2 eexists; split; [reflexivity|]; simpl).
  all: try reflexivity.
  all: split; [by eexists _, _|].
  all: split; [repeat constructor|].
  all: split; [repeat constructor|].
  all: try exact I.
  all: split; [reflexivity|]; split; [reflexivity|].
  all: try exact I.
  all: eexists; rewrite list_elem_of_In; simpl; auto 20.
Qed.

(** C9: the waiting branch is entered when [wait] is truthy and not
    otherwise.  When it is truthy, unless an earlier step raised, the
    message is printed and, unless [print] raised, the completion check
    is called on the project the factory returned as the last call of
    [submit], which ends as the check ends; when it is not, neither is
    called.  On the command line [--wait] is a string option that
    defaults to [None], so every non-empty string given, ["False"]
    included, triggers the blocking check, and an absent or empty option
    does not. *)
Theorem submit_wait_truth (a : Args) (w : World) (cl : CommandLine) :
  let outside := fun ev : Call Proj File * Outcome Exn (Ret Proj File) =>
    is_print ev.1 = false /\ is_wait ev.1 = false in
  let waits := fun a : Args =>
    let r := result (submit ext a) w in
    let log := calls (submit ext a) w in
    (exists pre kwargs proj s o,
       log = pre ++ [ (print_call s, Returned (RVal VNone));
                      (wait_call proj true true, o) ] /\
       (create_job_call kwargs, Returned (RProj proj)) ∈ pre /\
       Forall outside pre /\
       r = outcome_map (fun _ => tt) o) \/
    (exists pre s e,
       log = pre ++ [(print_call s, Raised e)] /\
       Forall outside pre /\
       r = Raised e) \/
    (exists e, r = Raised e /\ Forall outside log) in
  let skips := fun a : Args => Forall outside (calls (submit ext a) w) in
  (if truthy a.(wait) then waits a else skips a) /\
  truthy (click_args cl).(wait) =
    match cl_options cl !! "wait" with
    | Some s => negb (String.eqb s "")
    | None => false
    end /\
  match cl_options cl !! "wait" with
  | Some s =>
      if String.eqb s "" then skips (click_args cl) else waits (click_args cl)
  | None => skips (click_args cl)
  end /\
  truthy (VStr "False") = true.
Proof.
  cbv zeta.
  assert (Hany : forall a : Args,
    if truthy a.(wait) then
      (exists pre kwargs proj s o,
         calls (submit ext a) w =
           pre ++ [ (print_call s, Returned (RVal VNone));
                    (wait_call proj true true, o) ] /\
         (create_job_call kwargs, Returned (RProj proj)) ∈ pre /\
         Forall (fun ev => is_print ev.1 = false /\ is_wait ev.1 = false) pre /\
         result (submit ext a) w = outcome_map (fun _ => tt) o) \/
      (exists pre s e,
         calls (submit ext a) w = pre ++ [(print_call s, Raised e)] /\
         Forall (fun ev => is_print ev.1 = false /\ is_wait ev.1 = false) pre /\
         result (submit ext a) w = Raised e) \/
      (exists e, result (submit ext a) w = Raised e /\
         Forall (fun ev => is_print ev.1 = false /\ is_wait ev.1 = false)
           (calls (submit ext a) w))
    else Forall (fun ev => is_print ev.1 = false /\ is_wait ev.1 = false)
           (calls (submit ext a) w)).
  { clear a. intros a.
    run_submit a w.
    all: settle_conditions.
    all: try solve [repeat constructor].
    all: try solve
      [right; right; eexists; split; [reflexivity | repeat constructor]].
    all: try solve
      [right; left; eexists _, _, _; split; [split_at|];
       split; [repeat constructor | reflexivity]].
    all: left; eexists _, _, _, _, _; split; [split_at|];
      (split; [|split; [repeat constructor | reflexivity]]).
    all: rewrite list_elem_of_In; simpl; tauto. }
  split; [apply Hany|]. split; [|split; [|reflexivity]].
  - unfold click_args, str_option; simpl.
    by destruct (cl_options cl !! "wait").
  - specialize (Hany (click_args cl)).
    unfold click_args at 1 in Hany. unfold str_option in Hany.
    simpl in Hany.
    destruct (cl_options cl !! "wait") as [s|]; simpl in Hany;
      [by destruct (String.eqb s "")|done].
Qed.

(** The resolutions [submit] asks for are, in order, those of
    [submit_parameters], each with the argument of that name and the
    default listed there; once the factory is called all ten have been
    asked, and the factory receives the other file arguments as they
    were given. *)
Lemma submit_asks (a : Args) (w : World) :
  let log := calls (submit ext a) w in
  let asked := omap (fun ev => get_value_of ev.1) log in
  let table :=
    (fun '(key, arg, default_value) => (arg a, key, default_value))
      <$> submit_parameters in
  asked `prefix_of` table /\
  match omap (fun ev => kwargs_of ev.1) log with
  | [] => True
  | kwargs :: more =>
      more = [] /\
      asked = table /\
      dict_get "main_file" kwargs = Some a.(main_file) /\
      dict_get "output_files" kwargs = Some a.(output_files) /\
      dict_get "shell_file" kwargs = Some a.(shell_file) /\
      dict_get "requirements_file" kwargs = Some a.(requirements_file) /\
      dict_get "extra_files" kwargs = Some a.(extra_files)
  end.
Proof.
  cbv zeta.
  run_submit a w.
  all: simpl; split; [eexists; reflexivity|]; auto 10.
Qed.

End Submit.

(** ** On the host *)

Section Host.
Context {Cluster Proj : Type}.
Variable get_value :
  pyval -> pyval -> string -> pyval -> Remote (Cluster := Cluster) pyval.
Variable create_job : dict -> Remote (Cluster := Cluster) Proj.
Variable wait_job : Proj -> bool -> bool -> Remote (Cluster := Cluster) pyval.

Local Abbreviation host := (host_externals get_value create_job wait_job).

Ltac run_host_call H :=
  match type of H with
  | context [match (if ?b then _ else _) _ with pair _ _ => _ end] =>
      let E := fresh "E" in
      destruct b eqn:E; simpl in H
  | (if ?b then _ else _) _ = _ =>
      let E := fresh "E" in
      destruct b eqn:E; simpl in H
  | context [match ?f ?w with pair _ _ => _ end] =>
      let o := fresh "o" in
      let c := fresh "c" in
      let E := fresh "E" in
      destruct (f w) as [o c] eqn:E; destruct o; simpl in H
  | context [decide (?p ∈ ?s)] =>
      let E := fresh "E" in
      destruct (decide (p ∈ s)) as [E|E]; simpl in H
  | context [match ?v with VNone => _ | _ => _ end] =>
      destruct v; simpl in H
  end.

Ltac run_host a w :=
  let H := fresh "Hrun" in
  let r := fresh "r" in
  let w' := fresh "w" in
  let log := fresh "log" in
  unfold result, calls, final in *;
  destruct (submit host a (w, [])) as [r [w' log]] eqn:H; simpl in *;
  unfold submit, with_open, when, try_finally, bind, ret,
    call_os_getcwd, call_get_value, call_create_job, call_print,
    call_json_dump, call_wait_for_completion, external in H;
  simpl in H;
  unfold host_open, host_json_dump, host_print, remote in H;
  simpl in H;
  repeat run_host_call H;
  injection H as <- <- <-.

(** Every one of the ten keyword arguments the factory receives is what
    the resolution of that parameter returned, on a host with the working
    directory and the files [submit] started with. *)
Lemma host_resolution (a : Args) (w : World Cluster) (kwargs : dict)
    (o : Outcome exn (Ret Proj string)) :
  (create_job_call kwargs, o) ∈ calls (submit host a) w ->
  Forall
    (fun '(key, arg, default_value) =>
       exists v w' c,
         dict_get key kwargs = Some v /\
         cwd w' = cwd w /\ files w' = files w /\
         get_value (arg a) (config_path w a) key default_value w' =
           (Returned v, c))
    submit_parameters.
Proof.
  intros Hin. unfold config_path.
  run_host a w.
  all: find_call Hin.
  all: injection Hin as <- <-.
  all: unfold submit_parameters; simpl.
  all: repeat (constructor;
    [do 3 eexists; (split; [|split; [|split]]); cycle 3;
     [eassumption | reflexivity | reflexivity | reflexivity]|]).
  all: constructor.
Qed.

(** C3: when [save_config_file] is true and the factory has returned,
    the file at the configuration path holds, once [submit] is over, the
    ten resolved values the job was submitted with, under their ten
    keys, and nothing else, whatever it held before.  The path has to be
    one [open] can write to. *)
Theorem submit_saves_config (a : Args) (w : World Cluster) (p : string)
    (kwargs : dict) (proj : Proj) :
  truthy a.(save_config_file) = true ->
  config_path w a = VStr p ->
  p ∉ locked w ->
  (create_job_call kwargs, Returned (RProj proj)) ∈ calls (submit host a) w ->
  files (final (submit host a) w) !! p = Some (Json (saved_config kwargs)).
Proof.
  intros Hsave Hpath Hlock Hin. unfold config_path in Hpath.
  run_host a w.
  all: try congruence.
  all: repeat match goal with
    | E : ?c = _, H : context [if ?c then _ else _] |- _ => rewrite E in H
    end.
  all: try discriminate Hpath.
  all: find_call Hin.
  all: injection Hin as <- <-.
  all: first [injection Hpath as <- | rewrite Hpath in *].
  all: try contradiction.
  all: simpl; rewrite lookup_insert_eq; reflexivity.
Qed.

End Host.

(** ** With the resolution the specification describes *)





(** C6: nothing is caught on the way.  A method of [Meshing] makes its
    one call of [run] and ends as that call ends, so an exception of
    [run] is the exception of the method.  [submit] ends with the
    exception of the last call that raised, calls nothing after a call
    that raised, and so raises the very exception of any resolution
    (which is where the configuration file is read), of the factory and
    of the completion check; the one call made after a failure is the
    [__exit__] of the file when [json.dump] raised inside the [with]
    block. *)
Theorem failures_propagate :
  (forall (World Exn Resp : Type)
          (run : string -> Meshing.Kwargs -> World -> Outcome Exn Resp * World)
          (m : Meshing.method) (args : list (option pyval))
          (kwargs : Meshing.Kwargs),
     length args = Meshing.arity m ->
     exists method_call command,
       Meshing.invoke run m args kwargs = Some method_call /\
       forall w,
         calls method_call w = [((command, kwargs), result method_call w)]) /\
  (forall (World Exn Proj File : Type) (ext : Externals World Exn Proj File)
          (a : Args) (w : World),
     let r := result (submit ext a) w in
     let log := calls (submit ext a) w in
     r = from_option Raised (Returned tt) (last_raised log) /\
     no_call_after_raise log /\
     forall c e,
       (c, Raised e) ∈ log ->
       (forall obj fp, c <> json_dump_call obj fp) ->
       r = Raised e).
Proof.
  split.
  - intros World Exn Resp run m args kwargs Hlen.
    destruct (MeshingFacts.invoke_is_run run m args kwargs Hlen)
      as [command Hinv].
    exists (Meshing.self_run run command kwargs), command.
    split; [exact Hinv|].
    intros w. unfold calls, result, Meshing.self_run, external; simpl.
    by destruct (run command kwargs w) as [[] ?].
  - intros World Exn Proj File ext a w. apply submit_propagates.
Qed.

(** ** Examples

    [pymapdl submit main.py --name job --wait False --save_config_file
    true], run in [home], whose configuration file holds [num_cores = 4]
    and a key [queue] that is no submission parameter. *)

Lemma home_submits :
  (create_job_call submitted, Returned (RProj 0%nat)) ∈
  calls (submit spec_host (click_args command_line)) home.
Proof.
  apply list_elem_of_In. vm_compute.
  do 11 right. left. reflexivity.
Defined.

(** In [home] the configuration is read at
    ["/home/user/hps_config.json"]. *)
Lemma submit_config_file_home :
  exists o rest,
    calls (submit spec_host (click_args command_line)) home =
      (os_getcwd_call, o) :: rest /\
    o = Returned (RVal (VStr "/home/user")) /\
    (exists o' rest',
       rest =
         (get_value_call VNone (VStr "/home/user/hps_config.json") "url" VNone,
          o') :: rest') /\
    Forall (uses_config_file (VStr "/home/user/hps_config.json")) rest.
Proof.
  pose proof (proj1 (submit_config_file spec_host
                       (click_args command_line) home)) as H.
  vm_compute in H.
  destruct H as (o & rest & Hlog & H).
  injection Hlog as <- <-.
  destruct H as (Hfirst & Hall & _).
  vm_compute. eexists _, _.
  split; [reflexivity|]. split; [reflexivity|].
  split; [exact Hfirst | exact Hall].
Defined.

(** [--wait False] waits: the run ends with the message and the
    completion check. *)
Lemma submit_wait_truth_home :
  cl_options command_line !! "wait" = Some "False" /\
  exists pre s o,
    calls (submit spec_host (click_args command_line)) home =
      pre ++ [ (print_call s, Returned (RVal VNone));
               (wait_call 0%nat true true, o) ] /\
    result (submit spec_host (click_args command_line)) home =
      outcome_map (fun _ => tt) o.
Proof.
  split; [reflexivity|].
  pose proof (proj1 (proj2 (proj2 (submit_wait_truth spec_host
                (click_args command_line) home command_line)))) as H.
  change (cl_options command_line !! "wait") with (Some "False") in H.
  cbv beta iota in H.
  change (String.eqb "False" "") with false in H.
  cbv beta iota in H.
  destruct H as [H|[H|H]].
  - destruct H as (pre & kwargs & proj & s & o & Hlog & _ & _ & Hr).
    exists pre, s, o. split; [|exact Hr].
    rewrite Hlog. repeat f_equal.
    apply (f_equal last) in Hlog.
    change (pre ++ [(print_call s, Returned (RVal VNone));
                    (wait_call proj true true, o)])
      with (pre ++ [(print_call s, Returned (RVal VNone))] ++
                    [(wait_call proj true true, o)]) in Hlog.
    rewrite app_assoc, last_snoc in Hlog.
    vm_compute in Hlog. congruence.
  - exfalso. destruct H as (pre & s & e & Hlog & _).
    apply (f_equal last) in Hlog. rewrite last_snoc in Hlog.
    vm_compute in Hlog. discriminate Hlog.
  - exfalso. destruct H as (e & Hr & _).
    vm_compute in Hr. discriminate Hr.
Defined.


(** The file is rewritten with the ten resolved values; [queue] is gone. *)
Lemma submit_saves_config_home :
  truthy (click_args command_line).(save_config_file) = true /\
  config_path home (click_args command_line) =
    VStr "/home/user/hps_config.json" /\
  ("/home/user/hps_config.json" ∉ locked home) /\
  (create_job_call submitted, Returned (RProj 0%nat)) ∈
    calls (submit spec_host (click_args command_line)) home /\
  files (final (submit spec_host (click_args command_line)) home)
    !! "/home/user/hps_config.json" =
  Some (Json (saved_config submitted)).
Proof.
  assert (Hlock : "/home/user/hps_config.json" ∉ locked home)
    by apply not_elem_of_empty.
  split; [reflexivity|]. split; [reflexivity|]. split; [exact Hlock|].
  split; [exact home_submits|].
  exact (submit_saves_config get_value_from_json_or_default_spec count_job
           done_wait (click_args command_line) home
           "/home/user/hps_config.json" submitted 0%nat eq_refl eq_refl
           Hlock home_submits).
Defined.


(** A command that [run] rejects, and a completion check that fails. *)
Lemma failures_propagate_examples :
  (length [Some (VStr "1"); None; None] = Meshing.arity Meshing.VMESH /\
   exists method_call command,
     Meshing.invoke Meshing.failing_run Meshing.VMESH
       [Some (VStr "1"); None; None] [] = Some method_call /\
     forall w,
       calls method_call w = [((command, []), result method_call w)]) /\
  ((wait_call 0%nat true true, Raised "HPSError") ∈
     calls (submit busy_host (click_args command_line)) home /\
   (forall obj fp,
      wait_call (File := string) 0%nat true true <> json_dump_call obj fp) /\
   result (submit busy_host (click_args command_line)) home =
     Raised "HPSError").
Proof.
  assert (Hin : (wait_call 0%nat true true, Raised "HPSError") ∈
                calls (submit busy_host (click_args command_line)) home).
  { apply list_elem_of_In. vm_compute. do 16 right. left. reflexivity. }
  assert (Hc : forall (obj : dict) (fp : string),
             wait_call (File := string) 0%nat true true <>
             json_dump_call obj fp)
    by discriminate.
  split.
  - split; [reflexivity|].
    exact (proj1 failures_propagate unit string pyval Meshing.failing_run
             Meshing.VMESH [Some (VStr "1"); None; None] [] eq_refl).
  - split; [exact Hin|]. split; [exact Hc|].
    exact (proj2 (proj2 (proj2 failures_propagate (World nat) exn nat string
                           busy_host (click_args command_line) home))
             _ _ Hin Hc).
Defined.

End HpcFacts.

(** * More on the command formatters *)

Module WireFacts.
Import Meshing Wire.

Lemma fields_cons (s : string) : exists f fs, fields s = f :: fs.
Proof.
  induction s as [|c s [f [fs IH]]]; simpl; [by eexists _, _|].
  destruct (Ascii.eqb c ","); [by eexists _, _|].
  rewrite IH. by eexists _, _.
Qed.

Lemma fields_app_comma (a b : string) :
  fields (a +:+ "," +:+ b) = fields a ++ fields b.
Proof.
  induction a as [|c a IH]; simpl; [reflexivity|].
  destruct (Ascii.eqb c ","); [by rewrite IH|].
  rewrite IH. by destruct (fields_cons a) as (f & fs & ->).
Qed.

Lemma fields_comma_free (s : string) : count_commas s = 0%nat -> fields s = [s].
Proof.
  induction s as [|c s IH]; simpl; [reflexivity|].
  destruct (Ascii.eqb c ","); [discriminate|].
  intros H. by rewrite IH.
Qed.

Lemma length_fields (s : string) : length (fields s) = S (count_commas s).
Proof.
  induction s as [|c s IH]; simpl; [reflexivity|].
  destruct (Ascii.eqb c ","); simpl; [by rewrite IH|].
  destruct (fields_cons s) as (f & fs & E). rewrite E in *. simpl in *. lia.
Qed.

Lemma fields_concat (x : string) (xs : list string) :
  fields (String.concat "," (x :: xs)) = fields x ++ mjoin (fields <$> xs).
Proof.
  revert x. induction xs as [|y xs IH]; intros x.
  - csimpl. by rewrite app_nil_r.
  - change (String.concat "," (x :: y :: xs))
      with (x +:+ "," +:+ String.concat "," (y :: xs)).
    by rewrite fields_app_comma, IH.
Qed.

Lemma keyword_comma_free (m : method) : count_commas (apdl_command m) = 0%nat.
Proof. by destruct m. Qed.

Lemma apdl_command_inj (m m' : method) :
  apdl_command m = apdl_command m' -> m = m'.
Proof. destruct m, m'; intros H; first [reflexivity | discriminate H]. Qed.

Section Formatters.
Context {World Exn Resp : Type}.
Variable run : string -> Kwargs -> World -> Outcome Exn Resp * World.

Lemma invoke_layout (m : method) (args : list (option pyval))
    (kwargs : Kwargs) :
  length args = arity m ->
  invoke run m args kwargs =
  Some (self_run run
          (String.concat ","
             (apdl_command m :: layout m (format ∘ supplied <$> args)))
          kwargs).
Proof.
  intros Hlen.
  destruct m; cbn in Hlen;
    repeat (destruct args as [|? args]; try discriminate Hlen);
    reflexivity.
Qed.

Lemma commands_sent_self_run (command : string) (kwargs : Kwargs) (w : World) :
  commands_sent (self_run run command kwargs) w = [command].
Proof.
  unfold commands_sent, calls, self_run, external; simpl.
  by destruct (run command kwargs w) as [[] ?].
Qed.

Lemma invoke_Some_length (m : method) (args : list (option pyval))
    (kwargs : Kwargs) (method_call : M World Exn Call Resp Resp) :
  invoke run m args kwargs = Some method_call -> length args = arity m.
Proof.
  intros H.
  destruct m;
    repeat (destruct args as [|? args]; simpl in H; try discriminate H);
    reflexivity.
Qed.

Lemma fields_command (m : method) (ps : list string) :
  fields (String.concat "," (apdl_command m :: ps)) =
  apdl_command m :: mjoin (fields <$> ps).
Proof.
  rewrite fields_concat, fields_comma_free; [reflexivity|].
  apply keyword_comma_free.
Qed.

Lemma length_join_fields (ps : list string) :
  length (mjoin (fields <$> ps)) =
  (length ps + sum_list_with count_commas ps)%nat.
Proof.
  induction ps as [|p ps IH]; csimpl; [reflexivity|].
  rewrite length_app, length_fields, IH. lia.
Qed.

Lemma join_fields_comma_free (ps : list string) :
  Forall (fun p => count_commas p = 0%nat) ps -> mjoin (fields <$> ps) = ps.
Proof.
  induction 1 as [|p ps Hp _ IH]; csimpl; [reflexivity|].
  by rewrite fields_comma_free, IH.
Qed.

Lemma commas_layout (m : method) (ps : list string) :
  length ps = arity m ->
  sum_list_with count_commas (layout m ps) = sum_list_with count_commas ps.
Proof.
  intros Hlen. destruct m; try reflexivity.
  - by destruct ps.
  - unfold layout. rewrite sum_list_with_app. simpl.
    rewrite <- sum_list_with_app. by rewrite take_drop.
Qed.

Lemma layout_comma_free (m : method) (ps : list string) :
  Forall (fun p => count_commas p = 0%nat) ps ->
  Forall (fun p => count_commas p = 0%nat) (layout m ps).
Proof.
  intros H. destruct m; try exact H.
  - by repeat constructor.
  - unfold layout. apply Forall_app. split; [by apply Forall_take|].
    constructor; [reflexivity | by apply Forall_drop].
Qed.

(** X1: when no argument contains a comma, splitting the command line a
    method passes to [run] at its commas gives back the keyword and then
    every parameter, formatted, at its declared position (an omitted one
    as an empty field); [latt] has one more, empty, field after [type_],
    and [clrmshln] one empty field. *)
Theorem command_round_trip (m : method) (args : list (option pyval))
    (kwargs : Kwargs) :
  length args = arity m ->
  Forall (fun a => count_commas (format (supplied a)) = 0%nat) args ->
  exists method_call command,
    invoke run m args kwargs = Some method_call /\
    (forall w, commands_sent method_call w = [command]) /\
    fields command =
      apdl_command m :: layout m (format ∘ supplied <$> args).
Proof.
  intros Hlen Hargs. eexists _, _.
  split; [by apply invoke_layout|].
  split; [intros w; apply commands_sent_self_run|].
  rewrite fields_command, join_fields_comma_free; [reflexivity|].
  apply layout_comma_free, Forall_fmap.
  eapply Forall_impl; [exact Hargs|]. by intros a.
Qed.

(** X2: nothing is quoted or escaped.  The fields of the command line
    are the keyword followed by the fields of each argument in turn, so
    that every comma inside an argument adds one field and moves the
    parameters after it one position on. *)
Theorem command_splits_at_commas (m : method) (args : list (option pyval))
    (kwargs : Kwargs) :
  length args = arity m ->
  exists method_call command,
    invoke run m args kwargs = Some method_call /\
    (forall w, commands_sent method_call w = [command]) /\
    fields command =
      apdl_command m ::
      mjoin (fields <$> layout m (format ∘ supplied <$> args)) /\
    length (fields command) =
      (S (length (layout m (format ∘ supplied <$> args))) +
       sum_list_with (count_commas ∘ format ∘ supplied) args)%nat.
Proof.
  intros Hlen. eexists _, _.
  split; [by apply invoke_layout|].
  split; [intros w; apply commands_sent_self_run|].
  split; [apply fields_command|].
  rewrite fields_command. cbn [length].
  rewrite length_join_fields, commas_layout by by rewrite length_fmap.
  cbn [Nat.add]. f_equal. f_equal. clear Hlen.
  induction args as [|a args IH]; csimpl; [reflexivity|]. by rewrite IH.
Qed.

(** X3: a command line tells which method built it: two calls that
    pass the same command to [run] are calls of the same method, whatever
    their arguments. *)
Theorem command_identifies_method (m m' : method)
    (args args' : list (option pyval)) (kwargs kwargs' : Kwargs)
    (method_call method_call' : M World Exn Call Resp Resp) (w w' : World) :
  invoke run m args kwargs = Some method_call ->
  invoke run m' args' kwargs' = Some method_call' ->
  commands_sent method_call w = commands_sent method_call' w' ->
  m = m'.
Proof.
  intros Hm Hm' Heq.
  pose proof (invoke_Some_length _ _ _ _ Hm) as Hlen.
  pose proof (invoke_Some_length _ _ _ _ Hm') as Hlen'.
  pose proof (invoke_layout m args kwargs Hlen) as E.
  pose proof (invoke_layout m' args' kwargs' Hlen') as E'.
  rewrite Hm in E. rewrite Hm' in E'.
  apply (inj Some) in E, E'. subst method_call method_call'.
  rewrite !commands_sent_self_run in Heq.
  assert (Hc : forall c c' : string, [c] = [c'] -> fields c = fields c')
    by (by intros c c' [= ->]).
  apply Hc in Heq. rewrite !fields_command in Heq.
  apply apdl_command_inj. congruence.
Qed.

End Formatters.

(** [kesize(7, "0.5")]. *)
Lemma command_round_trip_kesize :
  length [Some (VInt 7); Some (VStr "0.5"); None; None] = arity KESIZE /\
  Forall (fun a => count_commas (format (supplied a)) = 0%nat)
    [Some (VInt 7); Some (VStr "0.5"); None; None] /\
  exists method_call command,
    invoke silent_run KESIZE [Some (VInt 7); Some (VStr "0.5"); None; None]
      [] = Some method_call /\
    (forall w, commands_sent method_call w = [command]) /\
    fields command = ["KESIZE"; "7"; "0.5"; ""; ""].
Proof.
  assert (Hargs : Forall (fun a => count_commas (format (supplied a)) = 0%nat)
                    [Some (VInt 7); Some (VStr "0.5"); None; None])
    by (repeat constructor).
  split; [reflexivity|]. split; [exact Hargs|].
  exact (command_round_trip silent_run KESIZE
           [Some (VInt 7); Some (VStr "0.5"); None; None] [] eq_refl Hargs).
Defined.

(** [amesh("1,2", "3")] is read as [amesh("1", "2", "3")] would be, with
    one field more. *)
Lemma command_splits_at_commas_amesh :
  length [Some (VStr "1,2"); Some (VStr "3"); None] = arity AMESH /\
  exists method_call command,
    invoke silent_run AMESH [Some (VStr "1,2"); Some (VStr "3"); None] [] =
      Some method_call /\
    (forall w, commands_sent method_call w = [command]) /\
    fields command = ["AMESH"; "1"; "2"; "3"; ""] /\
    length (fields command) = 5%nat.
Proof.
  split; [reflexivity|].
  exact (command_splits_at_commas silent_run AMESH
           [Some (VStr "1,2"); Some (VStr "3"); None] [] eq_refl).
Defined.

(** [amesh("1,2", "3")] and [amesh("1", "2,3")] pass the same command. *)
Lemma command_identifies_method_amesh :
  invoke silent_run AMESH [Some (VStr "1,2"); Some (VStr "3"); None] [] =
    Some (self_run silent_run "AMESH,1,2,3," []) /\
  invoke silent_run AMESH [Some (VStr "1"); Some (VStr "2,3"); None] [] =
    Some (self_run silent_run "AMESH,1,2,3," []) /\
  commands_sent (self_run silent_run "AMESH,1,2,3," []) tt =
    commands_sent (self_run silent_run "AMESH,1,2,3," []) tt /\
  AMESH = AMESH.
Proof.
  split; [reflexivity|]. split; [reflexivity|]. split; [reflexivity|].
  exact (command_identifies_method silent_run AMESH AMESH
           [Some (VStr "1,2"); Some (VStr "3"); None]
           [Some (VStr "1"); Some (VStr "2,3"); None] [] []
           _ _ tt tt eq_refl eq_refl eq_refl).
Defined.

End WireFacts.

(** * More on [submit] *)

Module HpcExtra.
Import Hpc HpcFacts HpcTrace.

Section Submit.
Context {World Exn Proj File : Type}.
Variable ext : Externals World Exn Proj File.

Ltac run_call H :=
  match type of H with
  | context [match (if ?b then _ else _) _ with pair _ _ => _ end] =>
      let E := fresh "E" in
      destruct b eqn:E; simpl in H
  | (if ?b then _ else _) _ = _ =>
      let E := fresh "E" in
      destruct b eqn:E; simpl in H
  | context [match ?f ?w with pair _ _ => _ end] =>
      let o := fresh "o" in
      let w' := fresh "w" in
      let E := fresh "E" in
      destruct (f w) as [o w'] eqn:E; destruct o; simpl in H
  end.

Ltac run_submit a w :=
  let H := fresh "Hrun" in
  let r := fresh "r" in
  let w' := fresh "w" in
  let log := fresh "log" in
  unfold result, calls, final;
  destruct (submit ext a (w, [])) as [r [w' log]] eqn:H; simpl;
  unfold submit, with_open, when, try_finally, bind, ret,
    call_os_getcwd, call_get_value, call_create_job, call_print,
    call_json_dump, call_wait_for_completion, external in H;
  simpl in H;
  repeat run_call H;
  injection H as <- <- <-.

(** X4: the calls of [submit] follow the order of its text: [os.getcwd],
    the ten resolutions in the order [url], [user], [password], [python],
    [name], [num_cores], [memory], [disk_space], [exclusive],
    [max_execution_time], the factory, [open], [json.dump], the
    [__exit__] of the file, [print], the completion check.  No call is
    made twice and none out of this order.  Either the factory has not
    returned and nothing that follows it in the text is called, or it has
    returned a project and every call on the file, the [print] and the
    completion check come after that: nothing is written before the job
    is created. *)
Theorem submit_call_order (a : Args) (w : World) :
  let log := calls (submit ext a) w in
  StronglySorted lt ((fun ev => phase ev.1) <$> log) /\
  ((Forall (fun ev => phase ev.1 <= 12) log /\ created log = []) \/
   exists pre kwargs proj post,
     log = pre ++ (create_job_call kwargs, Returned (RProj proj)) :: post /\
     Forall (fun ev => phase ev.1 < 12) pre /\
     Forall (fun ev => 12 < phase ev.1) post).
Proof.
  cbv zeta. split.
  - apply Sorted_StronglySorted; [intros x y z; lia|].
    run_submit a w.
    all: repeat first
      [ apply Sorted_nil | apply Sorted_cons
      | apply HdRel_nil | apply HdRel_cons; simpl; lia ].
  - run_submit a w.
    all: try solve
      [left; split; [repeat (constructor; [simpl; lia|]); constructor
                    |reflexivity]].
    all: right; eexists _, _, _, _; split; [split_at|].
    all: split; repeat (constructor; [simpl; lia|]); constructor.
Qed.

(** X5: one invocation creates at most one job, and exactly one when
    [submit] returns: it never returns without the factory having
    returned a project. *)
Theorem submit_creates_once (a : Args) (w : World) :
  match result (submit ext a) w with
  | Returned _ =>
      exists kwargs proj, created (calls (submit ext a) w) = [(kwargs, proj)]
  | Raised _ =>
      created (calls (submit ext a) w) = [] \/
      exists kwargs proj, created (calls (submit ext a) w) = [(kwargs, proj)]
  end.
Proof.
  run_submit a w.
  all: first [by left | by right; eexists _, _ | by eexists _, _].
Qed.

(** X6: the factory is called with the sixteen keyword arguments of the
    source, and each of the ten submission parameters has the very value
    the resolution of that parameter returned. *)
Theorem submit_passes_resolved (a : Args) (w : World) :
  let log := calls (submit ext a) w in
  match omap (fun ev => kwargs_of ev.1) log with
  | [] => True
  | kwargs :: _ =>
      kwargs.*1 = job_keywords /\
      Forall
        (fun '(key, arg, default_value) =>
           exists json_file v,
             dict_get key kwargs = Some v /\
             (get_value_call (arg a) json_file key default_value,
              Returned (RVal v)) ∈ log)
        submit_parameters
  end.
Proof.
  cbv zeta.
  run_submit a w.
  all: simpl; try exact I.
  all: split; [reflexivity|].
  all: unfold submit_parameters;
    repeat (constructor;
      [eexists _, _; split; [reflexivity|];
       rewrite list_elem_of_In; simpl; auto 20|]).
  all: constructor.
Qed.

(** X7: the configuration file is opened at most once, for writing;
    when [open] returns, [json.dump] is called on that file and then its
    [__exit__], whether [json.dump] raised or not; when [open] raises or
    is not called, neither is. *)
Theorem submit_closes_file (a : Args) (w : World) :
  let files := file_calls (calls (submit ext a) w) in
  files = [] \/
  (exists file e, files = [(open_call file "w", Raised e)]) \/
  (exists file fid obj o1 o2,
     files = [ (open_call file "w", Returned (RFile fid));
               (json_dump_call obj fid, o1);
               (exit_call fid, o2) ]).
Proof.
  cbv zeta.
  run_submit a w.
  all: first
    [ by left
    | by right; left; eexists _, _
    | by right; right; eexists _, _, _, _, _ ].
Qed.

(** X8: at most one line is printed, and it names the job by its
    resolved name, the one the job was created with, not by the [name]
    argument. *)
Theorem submit_message (a : Args) (w : World) :
  let log := calls (submit ext a) w in
  match printed log, created log with
  | [], _ => True
  | [s], [(kwargs, _)] =>
      s = "Waiting for project "
            +:+ format (default VNone (dict_get "name" kwargs))
            +:+ " to be completed..."
  | _, _ => False
  end.
Proof.
  cbv zeta.
  run_submit a w.
  all: simpl; first [exact I | reflexivity].
Qed.

(** X9: from the command line, the argument of every resolution is the
    string typed for the option of that name, or [None] when the option
    is absent: [num_cores], [memory], [disk_space], [exclusive] and
    [max_execution_time] are not converted to numbers or booleans. *)
Theorem submit_resolves_strings (cl : CommandLine) (w : World) :
  Forall
    (fun '(arg, key, _) => arg = from_option VStr VNone (cl_options cl !! key))
    (omap (fun ev => get_value_of ev.1)
       (calls (submit ext (click_args cl)) w)).
Proof.
  destruct (submit_asks ext (click_args cl) w) as [[rest Hpre] _].
  eapply (Forall_app _ _ rest). rewrite <- Hpre.
  repeat constructor.
Qed.

End Submit.
End HpcExtra.

(** * More on [submit], on the host *)

Module HpcHostExtra.
Import Hpc HpcFacts HpcTrace.

Section Host.
Context {Cluster Proj : Type}.
Variable get_value :
  pyval -> pyval -> string -> pyval -> Remote (Cluster := Cluster) pyval.
Variable create_job : dict -> Remote (Cluster := Cluster) Proj.
Variable wait_job : Proj -> bool -> bool -> Remote (Cluster := Cluster) pyval.

Local Abbreviation host := (host_externals get_value create_job wait_job).

Ltac run_host_call H :=
  match type of H with
  | context [match (if ?b then _ else _) _ with pair _ _ => _ end] =>
      let E := fresh "E" in
      destruct b eqn:E; simpl in H
  | (if ?b then _ else _) _ = _ =>
      let E := fresh "E" in
      destruct b eqn:E; simpl in H
  | context [match ?f ?w with pair _ _ => _ end] =>
      let o := fresh "o" in
      let c := fresh "c" in
      let E := fresh "E" in
      destruct (f w) as [o c] eqn:E; destruct o; simpl in H
  | context [decide (?p ∈ ?s)] =>
      let E := fresh "E" in
      destruct (decide (p ∈ s)) as [E|E]; simpl in H
  | context [match ?v with VNone => _ | _ => _ end] =>
      destruct v; simpl in H
  end.

Ltac run_host a w :=
  let H := fresh "Hrun" in
  let r := fresh "r" in
  let w' := fresh "w" in
  let log := fresh "log" in
  unfold result, calls, final in *;
  destruct (submit host a (w, [])) as [r [w' log]] eqn:H; simpl in *;
  unfold submit, with_open, when, try_finally, bind, ret,
    call_os_getcwd, call_get_value, call_create_job, call_print,
    call_json_dump, call_wait_for_completion, external in H;
  simpl in H;
  unfold host_open, host_json_dump, host_print, remote in H;
  simpl in H;
  repeat run_host_call H;
  injection H as <- <- <-.

(** The file system [submit] leaves once the factory has returned. *)
Lemma host_files (a : Args) (w : World Cluster) (p : string)
    (kwargs : dict) (proj : Proj) :
  (create_job_call kwargs, Returned (RProj proj)) ∈ calls (submit host a) w ->
  config_path w a = VStr p ->
  files (final (submit host a) w) =
  if truthy a.(save_config_file) && bool_decide (p ∉ locked w)
  then <[p := Json (saved_config kwargs)]> (files w)
  else files w.
Proof.
  intros Hin Hpath. unfold config_path in Hpath.
  run_host a w.
  all: repeat match goal with
    | E : ?c = _, H : context [if ?c then _ else _] |- _ => rewrite E in H
    end.
  all: try discriminate Hpath.
  all: find_call Hin.
  all: injection Hin as <- <-.
  all: first [injection Hpath as <- | rewrite Hpath in * ].
  all: simpl.
  all: try reflexivity.
  all: try (rewrite bool_decide_eq_false_2 by auto; reflexivity).
  all: rewrite bool_decide_eq_true_2 by auto.
  all: rewrite insert_insert_eq; reflexivity.
Qed.

Lemma saved_config_get (kwargs : dict) :
  Forall
    (fun '(key, _, _) =>
       dict_get key (saved_config kwargs) =
       Some (default VNone (dict_get key kwargs)))
    submit_parameters.
Proof. repeat constructor. Qed.

(** X11: saving and loading agree.  When a run has saved its
    configuration, a later run given that file and none of the ten
    parameters creates its job with the same ten values, provided the
    resolution returns the value the file holds under a key when no
    argument is given. *)
Theorem submit_reloads_saved (a1 a2 : Args) (w : World Cluster) (p : string)
    (kwargs1 kwargs2 : dict) (proj1 : Proj)
    (o2 : Outcome exn (Ret Proj string)) :
  (forall json_file key default_value w' config v,
     file_at w' json_file = Some (Json config) ->
     dict_get key config = Some v ->
     (get_value VNone json_file key default_value w').1 = Returned v) ->
  truthy a1.(save_config_file) = true ->
  config_path w a1 = VStr p ->
  p ∉ locked w ->
  (create_job_call kwargs1, Returned (RProj proj1)) ∈
    calls (submit host a1) w ->
  a2.(config_file) = VStr p ->
  Forall (fun '(_, arg, _) => arg a2 = VNone) submit_parameters ->
  (create_job_call kwargs2, o2) ∈
    calls (submit host a2) (final (submit host a1) w) ->
  Forall
    (fun '(key, _, _) => dict_get key kwargs2 = dict_get key kwargs1)
    submit_parameters.
Proof.
  intros Hread Hsave Hpath Hlock Hin1 Hcf2 Hnone Hin2.
  pose proof (host_files a1 w p kwargs1 proj1 Hin1 Hpath) as Hfiles.
  rewrite Hsave, bool_decide_eq_true_2 in Hfiles by done. simpl in Hfiles.
  pose proof (host_resolution _ _ _ a1 w kwargs1 _ Hin1) as Hres1.
  pose proof (host_resolution _ _ _ a2 _ kwargs2 _ Hin2) as Hres2.
  pose proof (saved_config_get kwargs1) as Hsaved.
  rewrite Forall_forall in Hres1, Hres2, Hsaved, Hnone.
  apply Forall_forall. intros [[key arg] default_value] Hel.
  destruct (Hres1 _ Hel) as (v1 & _ & _ & Hget1 & _).
  destruct (Hres2 _ Hel) as (v2 & w' & c & Hget2 & _ & Hfiles2 & Hcall).
  specialize (Hsaved _ Hel). specialize (Hnone _ Hel). simpl in Hsaved, Hnone.
  rewrite Hget1 in Hsaved. simpl in Hsaved.
  unfold config_path in Hcall. rewrite Hcf2, Hnone in Hcall. simpl in Hcall.
  assert (Hfile : file_at w' (VStr p) = Some (Json (saved_config kwargs1))).
  { simpl. by rewrite Hfiles2, Hfiles, lookup_insert_eq. }
  pose proof (Hread _ key default_value _ _ _ Hfile Hsaved) as Hv.
  rewrite Hcall in Hv. simpl in Hv. congruence.
Qed.

(** X10: on the host, [submit] leaves the working directory alone and
    writes at most one file: the file system is as it was, or, when
    [save_config_file] is true and a job was created, as it was but for
    the file at the configuration path, which holds the ten values the
    job was created with. *)
Theorem submit_writes_one_file (a : Args) (w : World Cluster) :
  let w' := final (submit host a) w in
  cwd w' = cwd w /\
  locked w' = locked w /\
  (files w' = files w \/
   exists p kwargs proj,
     config_path w a = VStr p /\
     truthy a.(save_config_file) = true /\
     created (calls (submit host a) w) = [(kwargs, proj)] /\
     files w' = <[p := Json (saved_config kwargs)]> (files w)).
Proof.
  cbv zeta. unfold config_path.
  run_host a w.
  all: split; [reflexivity|]; split; [reflexivity|].
  all: try (left; reflexivity).
  all: right; eexists _, _, _.
  all: repeat match goal with
    | E : ?c = _ |- context [if ?c then _ else _] => rewrite E
    end.
  all: simpl; rewrite insert_insert_eq; done.
Qed.

End Host.
(** The run of [command_line] in [home], then [reload_line]. *)
Lemma submit_reloads_saved_home :
  (forall (json_file : pyval) (key : string) (default_value : pyval)
          (w' : World nat) (config : dict) (v : pyval),
     file_at w' json_file = Some (Json config) ->
     dict_get key config = Some v ->
     (get_value_from_json_or_default_spec VNone json_file key default_value
        w').1 = Returned v) /\
  truthy (click_args command_line).(save_config_file) = true /\
  config_path home (click_args command_line) =
    VStr "/home/user/hps_config.json" /\
  ("/home/user/hps_config.json" ∉ locked home) /\
  (create_job_call submitted, Returned (RProj 0%nat)) ∈
    calls (submit spec_host (click_args command_line)) home /\
  (click_args reload_line).(config_file) =
    VStr "/home/user/hps_config.json" /\
  Forall (fun '(_, arg, _) => arg (click_args reload_line) = VNone)
    submit_parameters /\
  (create_job_call (("main_file", VStr "next.py") :: tail submitted),
   Returned (RProj 1%nat)) ∈
    calls (submit spec_host (click_args reload_line))
      (final (submit spec_host (click_args command_line)) home) /\
  Forall
    (fun '(key, _, _) =>
       dict_get key (("main_file", VStr "next.py") :: tail submitted) =
       dict_get key submitted)
    submit_parameters.
Proof.
  assert (Hread : forall (json_file : pyval) (key : string)
                    (default_value : pyval) (w' : World nat) (config : dict)
                    (v : pyval),
             file_at w' json_file = Some (Json config) ->
             dict_get key config = Some v ->
             (get_value_from_json_or_default_spec VNone json_file key
                default_value w').1 = Returned v).
  { intros json_file key default_value w' config v Hfile Hget.
    unfold get_value_from_json_or_default_spec. simpl.
    rewrite Hfile, Hget. reflexivity. }
  assert (Hlock : "/home/user/hps_config.json" ∉ locked home)
    by apply not_elem_of_empty.
  assert (Hnone : Forall (fun '(_, arg, _) => arg (click_args reload_line) = VNone)
                    submit_parameters)
    by (vm_compute; repeat constructor).
  assert (Hin2 : (create_job_call (("main_file", VStr "next.py") :: tail submitted),
                  Returned (RProj 1%nat)) ∈
                 calls (submit spec_host (click_args reload_line))
                   (final (submit spec_host (click_args command_line)) home)).
  { apply list_elem_of_In. vm_compute. do 10 right. left. reflexivity. }
  split; [exact Hread|]. split; [reflexivity|]. split; [reflexivity|].
  split; [exact Hlock|]. split; [exact home_submits|].
  split; [reflexivity|]. split; [exact Hnone|]. split; [exact Hin2|].
  exact (submit_reloads_saved get_value_from_json_or_default_spec count_job
           done_wait (click_args command_line) (click_args reload_line) home
           "/home/user/hps_config.json" submitted _ 0%nat _ Hread eq_refl
           eq_refl Hlock home_submits eq_refl Hnone Hin2).
Defined.

End HpcHostExtra.
